(** * RadioFM plugin server: the search proxy of [src/server.js]

    A shallow embedding of the two mappers ([mapRadioStation],
    [mapPodcast]) and of the [/search] route handler, over a small model
    of the JavaScript values the handler receives: the parsed query
    parameter on one side, the decoded JSON body of the upstream answer
    on the other.

    - strings are sequences of UTF-16 code units;
    - numbers are IEEE 754 binary64 values ([spec_float]);
    - an exception is a value of an error monad ([exn]);
    - the outbound call and the log line are the events of a small
      interaction tree ([prog]), run against an upstream oracle. *)

From Stdlib Require Import Strings.String Strings.Ascii.
From Stdlib Require Import List ZArith NArith Bool Lia.
From Stdlib Require Import Floats.SpecFloat.
Import ListNotations.

Set Implicit Arguments.
Set Warnings "-register-all".
Local Open Scope Z_scope.

(* ================================================================== *)
(** * JavaScript strings *)

(** A string is its sequence of UTF-16 code units. *)
Definition jstring := list N.

(** The code units of an ASCII literal of the source. *)
Definition lit (s : string) : jstring :=
  map N_of_ascii (list_ascii_of_string s).

Definition jstring_eqb (a b : jstring) : bool :=
  if list_eq_dec N.eq_dec a b then true else false.

(** [WhiteSpace] and [LineTerminator] code points of ECMAScript, the
    characters [String.prototype.trim] and [parseInt] strip.  All of
    them are single code units. *)
Definition is_whitespace (c : N) : bool :=
  existsb (N.eqb c)
    [9; 10; 11; 12; 13; 32; 160; 5760; 8232; 8233; 8239; 8287; 12288; 65279]%N
  || ((8192 <=? c) && (c <=? 8202))%N.

Fixpoint trim_start (s : jstring) : jstring :=
  match s with
  | [] => []
  | c :: rest => if is_whitespace c then trim_start rest else s
  end.

Definition trim_end (s : jstring) : jstring :=
  rev (trim_start (rev s)).

(** [String.prototype.trim]. *)
Definition trim (s : jstring) : jstring :=
  trim_end (trim_start s).

(* ================================================================== *)
(** * Numbers *)

(** A Number is a binary64 floating-point value. *)
Definition number := spec_float.

Definition prec : Z := 53.
Definition emax : Z := 1024.

(** The Number nearest to an integer (ties to even, overflow to an
    infinity); [neg_zero] is the sign given to a zero. *)
Definition number_of_Z (z : Z) (neg_zero : bool) : number :=
  binary_normalize prec emax z 0 neg_zero.

Definition NaN : number := S754_nan.
Definition zero : number := S754_zero false.

(** The integral part of a finite Number. *)
Definition integral_part (m : positive) (e : Z) : Z :=
  match e with
  | Z0 => Zpos m
  | Zpos p => Z.shiftl (Zpos m) (Zpos p)
  | Zneg p => Z.shiftr (Zpos m) (Zpos p)
  end.

(** The integer a Number is, when it is one. *)
Definition integer_value (n : number) : option Z :=
  match n with
  | S754_zero _ => Some 0
  | S754_finite s m e =>
      let v := integral_part m e in
      let whole :=
        match e with
        | Zneg p => Z.shiftl v (Zpos p) =? Zpos m
        | _ => true
        end in
      if whole then Some (if s then - v else v) else None
  | _ => None
  end.

(* ================================================================== *)
(** * Values *)

(** The values the handler meets: what [JSON.parse] and the query-string
    parser build, plus [undefined], the result of reading a property
    that is not there. An object is the list of its own properties. *)
Inductive value :=
| Undefined
| Null
| Bool (b : bool)
| Num (n : number)
| Str (s : jstring)
| Arr (items : list value)
| Obj (props : list (jstring * value)).

(** Errors that reach the handler's [catch], or escape it. *)
Inductive js_error :=
| TypeError
| AxiosError (message : jstring).

(** Computations that may throw. *)
Inductive exn (A : Type) :=
| Ok (a : A)
| Throw (e : js_error).
Arguments Ok {A} a.
Arguments Throw {A} e.

Definition bind {A B} (m : exn A) (k : A -> exn B) : exn B :=
  match m with
  | Ok a => k a
  | Throw e => Throw e
  end.

Notation "x <- m ;; k" := (bind m (fun x => k))
  (at level 61, m at next level, right associativity).

Fixpoint mapM {A B} (f : A -> exn B) (l : list A) : exn (list B) :=
  match l with
  | [] => Ok []
  | a :: rest => b <- f a;; bs <- mapM f rest;; Ok (b :: bs)
  end.

(** [ToBoolean]. *)
Definition ToBoolean (v : value) : bool :=
  match v with
  | Undefined | Null => false
  | Bool b => b
  | Num (S754_zero _) | Num S754_nan => false
  | Num _ => true
  | Str [] => false
  | Str _ => true
  | Arr _ | Obj _ => true
  end.

(** [a || b]. *)
Definition logical_or (a b : value) : value :=
  if ToBoolean a then a else b.

(** [v === "s"] for a string literal. *)
Definition is_string (v : value) (s : jstring) : bool :=
  match v with
  | Str t => jstring_eqb t s
  | _ => false
  end.

(** [v === 0]: both zeros are equal to [0], nothing else is. *)
Definition is_zero (v : value) : bool :=
  match v with
  | Num (S754_zero _) => true
  | _ => false
  end.

Definition nullish (v : value) : bool :=
  match v with
  | Undefined | Null => true
  | _ => false
  end.

Fixpoint lookup (k : jstring) (props : list (jstring * value)) : option value :=
  match props with
  | [] => None
  | (k', v) :: rest => if jstring_eqb k' k then Some v else lookup k rest
  end.

(** The value of [v.k] when [v] is neither [undefined] nor [null], for
    the property names the source reads: none of them is defined on a
    prototype, so only an object's own property can answer. *)
Definition field (v : value) (k : jstring) : value :=
  match v with
  | Obj props =>
      match lookup k props with
      | Some x => x
      | None => Undefined
      end
  | _ => Undefined
  end.

(** [v.k]: reading a property of [undefined] or [null] throws. *)
Definition get (v : value) (k : jstring) : exn value :=
  if nullish v then Throw TypeError else Ok (field v k).

(** [Array.isArray]. *)
Definition isArray (v : value) : bool :=
  match v with
  | Arr _ => true
  | _ => false
  end.

(* ================================================================== *)
(** * The public schema *)

Module Station.
Record t := {
  id : value;
  name : value;
  logo : value;
  website : value;
  shortUrl : value;
  genre : value;
  languageCode : value;
  language : value;
  frequency : value;
  city : value;
  state : value;
  countryName : value;
  countryCode : value;
  playCount : number;
  favoriteCount : number;
  streamUrl : value;
  streamType : value;
  streamBitrate : value;
  deeplink : value;
  listenUrl : jstring
}.
End Station.

Module Podcast.
Record t := {
  id : value;
  name : value;
  description : value;
  language : value;
  image : value;
  email : value;
  category : value;
  totalStream : number;
  deeplink : value;
  countryCode : value
}.
End Podcast.

(** The body [res.json] is given on success. *)
Record SearchResult := {
  query : jstring;
  totalStations : nat;
  totalPodcasts : nat;
  stations : list Station.t;
  podcasts : list Podcast.t
}.

Inductive body :=
| ErrorBody (error : value)
| ResultBody (result : SearchResult).

(** What [res.status(code).json(body)] sends; [res.json] alone sends
    status 200. *)
Record response := {
  status : Z;
  json : body
}.

(* ================================================================== *)
(** * Effects of the handler *)

(** The arguments of [axios.get]. *)
Record request := {
  url : jstring;
  params : list (jstring * value);
  timeout : Z
}.

(** How the awaited promise settles: fulfilled with a response whose
    [data] is the decoded body, or rejected (network failure, timeout,
    error status). *)
Inductive axios_result :=
| Resolved (data : value)
| Rejected (err : js_error).

(** How the handler ends: a response was sent, or the promise of the
    [async] function was rejected with nothing sent. *)
Inductive outcome :=
| Responded (r : response)
| Unhandled (e : js_error).

(** A handler run: it returns, awaits an outbound GET, or writes
    [console.error(label, err.message)]. *)
Inductive prog (A : Type) :=
| Ret (a : A)
| AxiosGet (req : request) (k : axios_result -> prog A)
| ConsoleError (label : jstring) (err : js_error) (k : prog A).
Arguments Ret {A} a.
Arguments AxiosGet {A} req k.
Arguments ConsoleError {A} label err k.

Inductive event :=
| Called (req : request)
| Logged (label : jstring) (err : js_error).

(** Runs a handler against an upstream, recording what it did. *)
Fixpoint run {A} (upstream : request -> axios_result) (p : prog A)
  : list event * A :=
  match p with
  | Ret a => ([], a)
  | AxiosGet req k =>
      let '(trace, a) := run upstream (k (upstream req)) in
      (Called req :: trace, a)
  | ConsoleError label err k =>
      let '(trace, a) := run upstream k in
      (Logged label err :: trace, a)
  end.

Definition is_call (e : event) : bool :=
  match e with
  | Called _ => true
  | Logged _ _ => false
  end.

(** The number of outbound calls in a trace. *)
Definition outbound_calls (trace : list event) : nat :=
  length (filter is_call trace).

(* ================================================================== *)
(** * String conversion and [parseInt] *)

(** [Number::toString] is left to the engine: the language fixes it only
    up to a choice among shortest representations.  Everything below
    holds for every such function. *)
Class NumberPrinter := NumberToString : number -> jstring.

Fixpoint uint_digits (d : Decimal.uint) : jstring :=
  match d with
  | Decimal.Nil => []
  | Decimal.D0 r => 48%N :: uint_digits r
  | Decimal.D1 r => 49%N :: uint_digits r
  | Decimal.D2 r => 50%N :: uint_digits r
  | Decimal.D3 r => 51%N :: uint_digits r
  | Decimal.D4 r => 52%N :: uint_digits r
  | Decimal.D5 r => 53%N :: uint_digits r
  | Decimal.D6 r => 54%N :: uint_digits r
  | Decimal.D7 r => 55%N :: uint_digits r
  | Decimal.D8 r => 56%N :: uint_digits r
  | Decimal.D9 r => 57%N :: uint_digits r
  end.

(** [Number::toString] as every engine computes it on [NaN], the
    infinities, the zeros and the integers up to [2^53], where the
    shortest representation is the decimal expansion.  Numbers outside
    that range are printed through their integral part, which engines
    do not do: the examples below contain none. *)
Definition integer_printer : NumberPrinter := fun n =>
  match n with
  | S754_nan => lit "NaN"
  | S754_infinity false => lit "Infinity"
  | S754_infinity true => lit "-Infinity"
  | S754_zero _ => lit "0"
  | S754_finite s m e =>
      (if s then lit "-" else []) ++
      uint_digits (N.to_uint (Z.to_N (integral_part m e)))
  end.

(* ================================================================== *)
(** * Example data *)

(** A station item as the upstream sends it, and its normalized form. *)
Definition jazz_station : value :=
  Obj [(lit "st_id", Num (number_of_Z 7 false));
       (lit "st_shorturl", Str (lit "jazz7"));
       (lit "st_bc_freq", Str (lit "~"));
       (lit "st_play_cnt", Str (lit "42"))].

Definition jazz_normalized : Station.t :=
  {| Station.id := Num (number_of_Z 7 false);
     Station.name := Undefined;
     Station.logo := Undefined;
     Station.website := Undefined;
     Station.shortUrl := Str (lit "jazz7");
     Station.genre := Undefined;
     Station.languageCode := Undefined;
     Station.language := Undefined;
     Station.frequency := Null;
     Station.city := Undefined;
     Station.state := Undefined;
     Station.countryName := Undefined;
     Station.countryCode := Undefined;
     Station.playCount := number_of_Z 42 false;
     Station.favoriteCount := zero;
     Station.streamUrl := Undefined;
     Station.streamType := Undefined;
     Station.streamBitrate := Undefined;
     Station.deeplink := Undefined;
     Station.listenUrl := lit "https://appradiofm.com/radioplay/jazz7" |}.

(** A station whose play count is not a number. *)
Definition unrated_station : value :=
  Obj [(lit "st_shorturl", Str (lit "X123"));
       (lit "st_bc_freq", Str (lit "101.5"));
       (lit "st_play_cnt", Str (lit "N/A"))].

(** An upstream answer with one radio bucket and no podcast bucket. *)
Definition jazz_buckets : list value :=
  [Obj [(lit "type", Str (lit "radio"));
        (lit "data", Arr [jazz_station])]].

Definition jazz_payload : value :=
  Obj [(lit "ErrorCode", Num zero);
       (lit "ErrorMessage", Str []);
       (lit "Data", Arr jazz_buckets)].

Definition jazz_answer : value := Obj [(lit "data", jazz_payload)].

Definition jazz_response : response :=
  {| status := 200;
     json := ResultBody {| query := lit "jazz";
                           totalStations := 1;
                           totalPodcasts := 0;
                           stations := [jazz_normalized];
                           podcasts := [] |} |}.

(** An upstream answer that reports an application error. *)
Definition no_results_payload : value :=
  Obj [(lit "ErrorCode", Num (number_of_Z 1 false));
       (lit "ErrorMessage", Str (lit "No results"))].

Definition no_results_answer : value := Obj [(lit "data", no_results_payload)].

(** An upstream answer whose payload has no error code. *)
Definition uncoded_payload : value := Obj [(lit "Data", Arr jazz_buckets)].

Definition uncoded_answer : value := Obj [(lit "data", uncoded_payload)].

(** Upstreams that always answer the same. *)
Definition answering (apiData : value) : request -> axios_result :=
  fun _ => Resolved apiData.

Definition timing_out : request -> axios_result :=
  fun _ => Rejected (AxiosError (lit "timeout of 15000ms exceeded")).

(** A station with counters that are not plain digit strings, and no
    short url. *)
Definition messy_station : value :=
  Obj [(lit "st_id", Str (lit "s-9"));
       (lit "st_name", Str (lit "Messy FM"));
       (lit "st_play_cnt", Str (lit " 12.5"));
       (lit "st_fav_cnt", Str (lit "-3"))].

(** A podcast whose counter is the boolean [false]. *)
Definition quiet_podcast : value :=
  Obj [(lit "p_id", Num (number_of_Z 3 false));
       (lit "p_name", Str (lit "Quiet"));
       (lit "total_stream", Bool false)].

(** What [mapRadioStation] makes of an item that has no property at
    all. *)
Definition blank_station : Station.t :=
  {| Station.id := Undefined;
     Station.name := Undefined;
     Station.logo := Undefined;
     Station.website := Undefined;
     Station.shortUrl := Undefined;
     Station.genre := Undefined;
     Station.languageCode := Undefined;
     Station.language := Undefined;
     Station.frequency := Undefined;
     Station.city := Undefined;
     Station.state := Undefined;
     Station.countryName := Undefined;
     Station.countryCode := Undefined;
     Station.playCount := zero;
     Station.favoriteCount := zero;
     Station.streamUrl := Undefined;
     Station.streamType := Undefined;
     Station.streamBitrate := Undefined;
     Station.deeplink := Undefined;
     Station.listenUrl := lit "https://appradiofm.com/radioplay/undefined" |}.

(** What [mapPodcast] makes of such an item. *)
Definition blank_podcast : Podcast.t :=
  {| Podcast.id := Undefined;
     Podcast.name := Undefined;
     Podcast.description := Undefined;
     Podcast.language := Undefined;
     Podcast.image := Undefined;
     Podcast.email := Undefined;
     Podcast.category := Undefined;
     Podcast.totalStream := zero;
     Podcast.deeplink := Undefined;
     Podcast.countryCode := Undefined |}.

(** An upstream answer with error code 0 and the given [Data]. *)
Definition payload_with (data : value) : value :=
  Obj [(lit "ErrorCode", Num zero); (lit "Data", data)].

Definition answer_with (data : value) : value :=
  Obj [(lit "data", payload_with data)].

(** The normalized forms of the two example items. *)
Definition messy_normalized : Station.t :=
  {| Station.id := Str (lit "s-9");
     Station.name := Str (lit "Messy FM");
     Station.logo := Undefined;
     Station.website := Undefined;
     Station.shortUrl := Undefined;
     Station.genre := Undefined;
     Station.languageCode := Undefined;
     Station.language := Undefined;
     Station.frequency := Undefined;
     Station.city := Undefined;
     Station.state := Undefined;
     Station.countryName := Undefined;
     Station.countryCode := Undefined;
     Station.playCount := number_of_Z 12 false;
     Station.favoriteCount := number_of_Z (-3) true;
     Station.streamUrl := Undefined;
     Station.streamType := Undefined;
     Station.streamBitrate := Undefined;
     Station.deeplink := Undefined;
     Station.listenUrl := lit "https://appradiofm.com/radioplay/undefined" |}.

Definition quiet_normalized : Podcast.t :=
  {| Podcast.id := Num (number_of_Z 3 false);
     Podcast.name := Str (lit "Quiet");
     Podcast.description := Undefined;
     Podcast.language := Undefined;
     Podcast.image := Undefined;
     Podcast.email := Undefined;
     Podcast.category := Undefined;
     Podcast.totalStream := zero;
     Podcast.deeplink := Undefined;
     Podcast.countryCode := Undefined |}.

(** A radio bucket with a [null] among its items. *)
Definition torn_buckets : list value :=
  [Obj [(lit "type", Str (lit "radio"));
        (lit "data", Arr [jazz_station; Null])]].

(** A bucket list with a bucket of each kind. *)
Definition quiet_bucket : value :=
  Obj [(lit "type", Str (lit "podcast"));
       (lit "data", Arr [quiet_podcast])].

Definition full_buckets : list value := jazz_buckets ++ [quiet_bucket].

(** A query parameter given twice. *)
Definition repeated_query : value := Arr [Str (lit "jazz"); Str (lit "rock")].

(** A bucket list with a bucket of each kind and a [null] after them. *)
Definition loose_buckets : list value := full_buckets ++ [Null].

(** An upstream answer whose [data] is a string. *)
Definition stray_answer : value := Obj [(lit "data", Str (lit "oops"))].

Section Engine.
Context {printer : NumberPrinter}.

Fixpoint join_with (sep : jstring) (parts : list jstring) : jstring :=
  match parts with
  | [] => []
  | [p] => p
  | p :: rest => p ++ sep ++ join_with sep rest
  end.

(** [ToString] on the values above.  Arrays print their elements joined
    by commas, with [undefined] and [null] elements printed empty.  An
    object prints through [Object.prototype.toString], unless an own
    property named [toString] hides it: that property is never callable
    here, [valueOf] then returns the object itself and the conversion
    throws. *)
Fixpoint ToString (v : value) : exn jstring :=
  match v with
  | Undefined => Ok (lit "undefined")
  | Null => Ok (lit "null")
  | Bool true => Ok (lit "true")
  | Bool false => Ok (lit "false")
  | Num n => Ok (NumberToString n)
  | Str s => Ok s
  | Arr items =>
      parts <- (fix elements (l : list value) : exn (list jstring) :=
                  match l with
                  | [] => Ok []
                  | x :: rest =>
                      p <- (if nullish x then Ok [] else ToString x);;
                      ps <- elements rest;;
                      Ok (p :: ps)
                  end) items;;
      Ok (join_with (lit ",") parts)
  | Obj props =>
      match lookup (lit "toString") props with
      | Some _ => Throw TypeError
      | None => Ok (lit "[object Object]")
      end
  end.

Definition is_digit (c : N) : bool := ((48 <=? c) && (c <=? 57))%N.

Definition digit_value (c : N) : Z := Z.of_N c - 48.

(** The longest prefix of decimal digits. *)
Fixpoint digit_prefix (s : jstring) : jstring :=
  match s with
  | [] => []
  | c :: rest => if is_digit c then c :: digit_prefix rest else []
  end.

(** The integer a sequence of decimal digits denotes. *)
Definition decimal_value (digits : jstring) : Z :=
  fold_left (fun acc c => 10 * acc + digit_value c) digits 0.

(** [parseInt] on a string, radix 10: leading white space is dropped, a
    sign is read, then the longest run of decimal digits; no digit
    gives [NaN], otherwise the integer read is rounded to a Number
    (a zero keeps the sign).  Every digit counts: the engine does not
    use its licence to zero the digits after the twentieth. *)
Definition parseInt_string (s : jstring) : number :=
  let trimmed := trim_start s in
  let '(negative, unsigned) :=
    match trimmed with
    | c :: rest =>
        if (c =? 45)%N then (true, rest)
        else if (c =? 43)%N then (false, rest)
        else (false, trimmed)
    | [] => (false, trimmed)
    end in
  match digit_prefix unsigned with
  | [] => NaN
  | digits =>
      let mathInt := decimal_value digits in
      number_of_Z (if negative then - mathInt else mathInt) negative
  end.

(** [parseInt(v, 10)]. *)
Definition parseInt (v : value) : exn number :=
  inputString <- ToString v;;
  Ok (parseInt_string inputString).

(** [Array.prototype.find]: the first element the callback accepts,
    [undefined] when there is none; a value that is not an array has no
    [find] to call. *)
Fixpoint find_in (callback : value -> exn bool) (l : list value) : exn value :=
  match l with
  | [] => Ok Undefined
  | x :: rest =>
      hit <- callback x;;
      if hit then Ok x else find_in callback rest
  end.

Definition array_find (callback : value -> exn bool) (v : value) : exn value :=
  match v with
  | Arr l => find_in callback l
  | _ => Throw TypeError
  end.

(** [Array.prototype.map]. *)
Definition array_map {A} (callback : value -> exn A) (v : value) : exn (list A) :=
  match v with
  | Arr l => mapM callback l
  | _ => Throw TypeError
  end.

(** [String.prototype.trim] called as a method: only a string has it. *)
Definition call_trim (v : value) : exn jstring :=
  match v with
  | Str s => Ok (trim s)
  | _ => Throw TypeError
  end.

(* ================================================================== *)
(** * The mappers *)

Definition LISTEN_BASE : jstring := lit "https://appradiofm.com/radioplay/".

(** [mapRadioStation(station)]: the properties of the literal are
    evaluated from top to bottom. *)
Definition mapRadioStation (station : value) : exn Station.t :=
  id <- get station (lit "st_id");;
  name <- get station (lit "st_name");;
  logo <- get station (lit "st_logo");;
  website <- get station (lit "st_weburl");;
  shortUrl <- get station (lit "st_shorturl");;
  genre <- get station (lit "st_genre");;
  languageCode <- get station (lit "st_lang");;
  language <- get station (lit "language");;
  freq <- get station (lit "st_bc_freq");;
  frequency <- (if is_string freq (lit "~") then Ok Null
                else get station (lit "st_bc_freq"));;
  city <- get station (lit "st_city");;
  state <- get station (lit "st_state");;
  countryName <- get station (lit "country_name_rs");;
  countryCode <- get station (lit "st_country");;
  play <- get station (lit "st_play_cnt");;
  playCount <- parseInt (logical_or play (Str (lit "0")));;
  fav <- get station (lit "st_fav_cnt");;
  favoriteCount <- parseInt (logical_or fav (Str (lit "0")));;
  streamUrl <- get station (lit "stream_link");;
  streamType <- get station (lit "stream_type");;
  streamBitrate <- get station (lit "stream_bitrate");;
  deeplink <- get station (lit "deeplink");;
  short <- get station (lit "st_shorturl");;
  shortText <- ToString short;;
  Ok {| Station.id := id;
        Station.name := name;
        Station.logo := logo;
        Station.website := website;
        Station.shortUrl := shortUrl;
        Station.genre := genre;
        Station.languageCode := languageCode;
        Station.language := language;
        Station.frequency := frequency;
        Station.city := city;
        Station.state := state;
        Station.countryName := countryName;
        Station.countryCode := countryCode;
        Station.playCount := playCount;
        Station.favoriteCount := favoriteCount;
        Station.streamUrl := streamUrl;
        Station.streamType := streamType;
        Station.streamBitrate := streamBitrate;
        Station.deeplink := deeplink;
        Station.listenUrl := LISTEN_BASE ++ shortText |}.

(** [mapPodcast(podcast)]. *)
Definition mapPodcast (podcast : value) : exn Podcast.t :=
  id <- get podcast (lit "p_id");;
  name <- get podcast (lit "p_name");;
  description <- get podcast (lit "p_desc");;
  language <- get podcast (lit "p_lang");;
  image <- get podcast (lit "p_image");;
  email <- get podcast (lit "p_email");;
  category <- get podcast (lit "cat_name");;
  total <- get podcast (lit "total_stream");;
  totalStream <- parseInt (logical_or total (Str (lit "0")));;
  deeplink <- get podcast (lit "deeplink");;
  countryCode <- get podcast (lit "cc_code");;
  Ok {| Podcast.id := id;
        Podcast.name := name;
        Podcast.description := description;
        Podcast.language := language;
        Podcast.image := image;
        Podcast.email := email;
        Podcast.category := category;
        Podcast.totalStream := totalStream;
        Podcast.deeplink := deeplink;
        Podcast.countryCode := countryCode |}.

(* ================================================================== *)
(** * The [/search] route *)

Definition RADIOFM_API_BASE : jstring :=
  lit "https://devappradiofm.radiofm.co/rfm/api".

Definition search_request (query : jstring) : request :=
  {| url := RADIOFM_API_BASE ++ lit "/new_combo_search.php";
     params := [(lit "srch", Str query)];
     timeout := 15000 |}.

Definition MISSING_QUERY : response :=
  {| status := 400;
     json := ErrorBody (Str (lit "Missing required query parameter: query")) |}.

Definition UNEXPECTED_RESPONSE : response :=
  {| status := 502;
     json := ErrorBody (Str (lit "Unexpected response from RadioFM API")) |}.

Definition API_ERROR_MESSAGE : value := Str (lit "RadioFM API error").

Definition INTERNAL_ERROR : response :=
  {| status := 500;
     json := ErrorBody
               (Str (lit "Internal server error while searching RadioFM")) |}.

(** [(b) => b.type === label]. *)
Definition type_is (label : jstring) (b : value) : exn bool :=
  t <- get b (lit "type");;
  Ok (is_string t label).

(** [bucket && Array.isArray(bucket.data) ? bucket.data.map(mapper) : []]. *)
Definition map_bucket {A} (mapper : value -> exn A) (bucket : value)
  : exn (list A) :=
  if ToBoolean bucket then
    items <- get bucket (lit "data");;
    if isArray items then
      items <- get bucket (lit "data");;
      array_map mapper items
    else Ok []
  else Ok [].

(** The body of the [try] block once the awaited call has answered with
    [apiData]. *)
Definition respond (query : jstring) (apiData : value) : exn response :=
  if negb (ToBoolean apiData) then Ok UNEXPECTED_RESPONSE else
  payload <- get apiData (lit "data");;
  if negb (ToBoolean payload) then Ok UNEXPECTED_RESPONSE else
  code <- get payload (lit "ErrorCode");;
  if negb (is_zero code) then
    message <- get payload (lit "ErrorMessage");;
    Ok {| status := 502;
          json := ErrorBody (logical_or message API_ERROR_MESSAGE) |}
  else
  data <- get payload (lit "Data");;
  let buckets := logical_or data (Arr []) in
  radioBucket <- array_find (type_is (lit "radio")) buckets;;
  podcastBucket <- array_find (type_is (lit "podcast")) buckets;;
  stations <- map_bucket mapRadioStation radioBucket;;
  podcasts <- map_bucket mapPodcast podcastBucket;;
  Ok {| status := 200;
        json := ResultBody {| query := query;
                              totalStations := length stations;
                              totalPodcasts := length podcasts;
                              stations := stations;
                              podcasts := podcasts |} |}.

(** [await axios.get(...)] followed by [response.data]. *)
Definition await (answer : axios_result) : exn value :=
  match answer with
  | Resolved data => Ok data
  | Rejected err => Throw err
  end.

(** The handler of [GET /search], given [req.query.query]. The first
    statement stands outside the [try]: an exception there rejects the
    handler's promise. *)
Definition search (raw_query : value) : prog outcome :=
  match call_trim (logical_or raw_query (Str [])) with
  | Throw e => Ret (Unhandled e)
  | Ok query =>
      if negb (ToBoolean (Str query)) then Ret (Responded MISSING_QUERY)
      else
        AxiosGet (search_request query) (fun answer =>
          match (apiData <- await answer;; respond query apiData) with
          | Ok r => Ret (Responded r)
          | Throw err =>
              ConsoleError (lit "Search error:") err
                (Ret (Responded INTERNAL_ERROR))
          end)
  end.

(* ================================================================== *)
(** * The claims' vocabulary *)

(** A raw counter that is missing: the property is absent, [null], or
    the empty string. *)
Definition missing_or_empty (raw : value) : bool :=
  match raw with
  | Undefined | Null | Str [] => true
  | _ => false
  end.

(** A numeric string: one decimal digit or more, and nothing else. *)
Definition numeric_string (s : jstring) : bool :=
  match s with
  | [] => false
  | _ => forallb is_digit s
  end.

Definition is_sign (c : N) : bool := ((c =? 45) || (c =? 43))%N.

(** A string that starts with something no integer starts with. *)
Definition starts_non_numeric (s : jstring) : bool :=
  match s with
  | [] => false
  | c :: _ => negb (is_whitespace c || is_sign c || is_digit c)
  end.

(** The raw value and the normalized value of each counter of the two
    mappers. *)
Inductive counter_of : value -> number -> Prop :=
| play_count station st :
    mapRadioStation station = Ok st ->
    counter_of (field station (lit "st_play_cnt")) (Station.playCount st)
| favorite_count station st :
    mapRadioStation station = Ok st ->
    counter_of (field station (lit "st_fav_cnt")) (Station.favoriteCount st)
| total_stream podcast pd :
    mapPodcast podcast = Ok pd ->
    counter_of (field podcast (lit "total_stream")) (Podcast.totalStream pd).

(** A value that is no array and no object. *)
Definition primitive (v : value) : bool :=
  match v with
  | Arr _ | Obj _ => false
  | _ => true
  end.

(** A query parameter that is absent, or blank once trimmed. *)
Definition blank_query (raw_query : value) : bool :=
  match raw_query with
  | Undefined => true
  | Str s =>
      match trim s with
      | [] => true
      | _ => false
      end
  | _ => false
  end.

(** The bucket list of a payload: its [Data], the empty list when that
    is absent. *)
Definition bucket_list (data : value) : list value :=
  match data with
  | Arr buckets => buckets
  | _ => []
  end.

(** The bucket's label equals [label]. *)
Definition has_label (label : jstring) (b : value) : bool :=
  is_string (field b (lit "type")) label.

(** The first bucket with the label, if any. *)
Definition first_bucket (label : jstring) (buckets : list value)
  : option value :=
  find (has_label label) buckets.

(** What [find] hands back: the bucket, or [undefined]. *)
Definition found (bucket : option value) : value :=
  match bucket with
  | Some b => b
  | None => Undefined
  end.

(** [out] is [items] normalized by [mapper], item by item. *)
Definition normalized {A} (mapper : value -> exn A) (items : list value)
  (out : list A) : Prop :=
  Forall2 (fun raw a => mapper raw = Ok a) items out.

(** The normalized collection of one kind: empty when no bucket has the
    label, empty when the selected bucket's item list is absent or not a
    proper list, and the normalized items of that bucket otherwise. *)
Inductive collection_of {A} (mapper : value -> exn A) (label : jstring)
  (buckets : list value) : list A -> Prop :=
| no_bucket :
    first_bucket label buckets = None ->
    collection_of mapper label buckets []
| no_item_list b :
    first_bucket label buckets = Some b ->
    isArray (field b (lit "data")) = false ->
    collection_of mapper label buckets []
| mapped_items b items out :
    first_bucket label buckets = Some b ->
    field b (lit "data") = Arr items ->
    normalized mapper items out ->
    collection_of mapper label buckets out.

(** The mapper throws on no item of the bucket selected for [label]. *)
Definition mappable {A} (mapper : value -> exn A) (label : jstring)
  (buckets : list value) : Prop :=
  forall b items,
    first_bucket label buckets = Some b ->
    field b (lit "data") = Arr items ->
    Forall (fun raw => exists a, mapper raw = Ok a) items.

(** The raw items of the bucket selected for [label]: those of the
    first bucket with the label when it has a proper item list. *)
Definition selected_items (label : jstring) (buckets : list value)
  : list value :=
  match first_bucket label buckets with
  | Some b => bucket_list (field b (lit "data"))
  | None => []
  end.

(** The string is [d] followed by something that is no digit. *)
Definition stops_digits (rest : jstring) : bool :=
  match rest with
  | [] => true
  | c :: _ => negb (is_digit c)
  end.

(** A string that does not start with white space. *)
Definition starts_clean (s : jstring) : bool :=
  match s with
  | [] => true
  | c :: _ => negb (is_whitespace c)
  end.

(** What the handler makes of the awaited answer to the call for
    [query]. *)
Definition after_call (query : jstring) (answer : axios_result)
  : exn response :=
  apiData <- await answer;; respond query apiData.

(** The statuses the handler sends. *)
Definition known_status (code : Z) : bool :=
  (code =? 200) || (code =? 400) || (code =? 500) || (code =? 502).

(** The answer passes the two tests of the envelope: it has a payload,
    whose error code is 0, and the payload's [Data] is [data]. *)
Definition success_envelope (apiData data : value) : Prop :=
  ToBoolean apiData = true /\
  ToBoolean (field apiData (lit "data")) = true /\
  is_zero (field (field apiData (lit "data")) (lit "ErrorCode")) = true /\
  field (field apiData (lit "data")) (lit "Data") = data.

(** The end of [respond], from the bucket list on. *)
Definition extract (query : jstring) (data : value) : exn response :=
  let buckets := logical_or data (Arr []) in
  radioBucket <- array_find (type_is (lit "radio")) buckets;;
  podcastBucket <- array_find (type_is (lit "podcast")) buckets;;
  stations <- map_bucket mapRadioStation radioBucket;;
  podcasts <- map_bucket mapPodcast podcastBucket;;
  Ok {| status := 200;
        json := ResultBody {| query := query;
                              totalStations := length stations;
                              totalPodcasts := length podcasts;
                              stations := stations;
                              podcasts := podcasts |} |}.

(** [find] can look for [label] in the list: every element it reads, up
    to the first bucket with the label, is an element whose [type] can
    be read (neither [null] nor [undefined]). *)
Fixpoint readable (label : jstring) (buckets : list value) : bool :=
  match buckets with
  | [] => true
  | b :: rest =>
      negb (nullish b) && (has_label label b || readable label rest)
  end.

(* ================================================================== *)
(** * Facts about the building blocks *)

Lemma bind_ok {A B} (m : exn A) (k : A -> exn B) (b : B) :
  bind m k = Ok b -> exists a, m = Ok a /\ k a = Ok b.
Proof.
  destruct m as [a|e]; simpl; intros H; [eauto | discriminate].
Qed.

Lemma get_ok (v : value) (k : jstring) :
  nullish v = false -> get v k = Ok (field v k).
Proof.
  unfold get; intros ->; reflexivity.
Qed.

Lemma truthy_not_nullish (v : value) :
  ToBoolean v = true -> nullish v = false.
Proof.
  destruct v; simpl; auto; discriminate.
Qed.

Lemma jstring_eqb_eq (a b : jstring) : jstring_eqb a b = true <-> a = b.
Proof.
  unfold jstring_eqb; destruct (list_eq_dec N.eq_dec a b); split;
    auto; discriminate.
Qed.

Lemma is_string_eq (v : value) (s : jstring) :
  is_string v s = true <-> v = Str s.
Proof.
  destruct v; simpl; try (split; discriminate).
  rewrite jstring_eqb_eq; split; [intros -> | intros H; inversion H]; auto.
Qed.

(** Shifting a non-negative mantissa right keeps it non-negative. *)
Lemma shr_1_nonneg (mrs : shr_record) :
  0 <= shr_m mrs -> 0 <= shr_m (shr_1 mrs).
Proof.
  destruct mrs as [m r s]; simpl.
  destruct m as [|[p|p|]|p]; simpl; lia.
Qed.

Lemma iter_shr_1_nonneg (p : positive) :
  forall mrs, 0 <= shr_m mrs -> 0 <= shr_m (iter_pos shr_1 p mrs).
Proof.
  induction p; simpl; intros mrs H; auto using shr_1_nonneg.
Qed.

Lemma shr_fexp_nonneg (m e : Z) (l : location) :
  0 <= m -> 0 <= shr_m (fst (shr_fexp prec emax m e l)).
Proof.
  intros H; unfold shr_fexp, shr.
  assert (H0 : 0 <= shr_m (shr_record_of_loc m l))
    by (destruct l as [|[]]; simpl; exact H).
  destruct (fexp prec emax (Zdigits2 m + e) - e); simpl; auto.
  apply iter_shr_1_nonneg; exact H0.
Qed.

Lemma round_nearest_even_nonneg (m : Z) (l : location) :
  0 <= m -> 0 <= round_nearest_even m l.
Proof.
  intros H; destruct l as [|[]]; simpl; try lia.
  destruct (Z.even m); lia.
Qed.

Lemma binary_round_aux_not_nan (sx : bool) (mx ex : Z) (lx : location) :
  0 <= mx -> binary_round_aux prec emax sx mx ex lx <> S754_nan.
Proof.
  intros H; unfold binary_round_aux.
  pose proof (shr_fexp_nonneg ex lx H) as H1.
  destruct (shr_fexp prec emax mx ex lx) as [mrs' e']; simpl in H1.
  pose proof (round_nearest_even_nonneg (loc_of_shr_record mrs') H1) as H2.
  pose proof (shr_fexp_nonneg e' loc_Exact H2) as H3.
  destruct (shr_fexp prec emax _ e' loc_Exact) as [mrs'' e'']; simpl in H3.
  destruct (shr_m mrs'') as [|m|m]; try lia; try discriminate.
  destruct (e'' <=? emax - prec); discriminate.
Qed.

(** Rounding an integer never gives [NaN]. *)
Lemma number_of_Z_not_nan (z : Z) (neg_zero : bool) :
  number_of_Z z neg_zero <> NaN.
Proof.
  unfold number_of_Z, binary_normalize, binary_round, NaN.
  destruct z as [|m|m]; try discriminate;
    destruct (shl_align _ _ _) as [mz ez];
    apply binary_round_aux_not_nan; lia.
Qed.

Lemma digits2_pos_iter (m k : positive) :
  digits2_pos (Pos.iter xO m k) = (digits2_pos m + k)%positive.
Proof.
  induction k as [|k IH] using Pos.peano_ind.
  - simpl. lia.
  - rewrite Pos.iter_succ; simpl; rewrite IH; lia.
Qed.

Lemma iter_xO_value (m k : positive) :
  Zpos (Pos.iter xO m k) = Zpos m * 2 ^ Zpos k.
Proof.
  induction k as [|k IH] using Pos.peano_ind.
  - simpl. lia.
  - rewrite Pos.iter_succ, Pos2Z.inj_xO, IH, Pos2Z.inj_succ, Z.pow_succ_r; lia.
Qed.

Lemma digits2_pos_lower (m : positive) :
  2 ^ (Zpos (digits2_pos m) - 1) <= Zpos m.
Proof.
  induction m as [m IH|m IH|]; simpl digits2_pos.
  - rewrite Pos2Z.inj_succ.
    replace (Z.succ (Zpos (digits2_pos m)) - 1) with (Z.succ (Zpos (digits2_pos m) - 1)) by lia.
    rewrite Z.pow_succ_r by lia. lia.
  - rewrite Pos2Z.inj_succ.
    replace (Z.succ (Zpos (digits2_pos m)) - 1) with (Z.succ (Zpos (digits2_pos m) - 1)) by lia.
    rewrite Z.pow_succ_r by lia. lia.
  - simpl. lia.
Qed.

Lemma digits2_pos_safe (m : positive) :
  Zpos m < 2 ^ 53 -> Zpos (digits2_pos m) <= 53.
Proof.
  intros H.
  destruct (Z_le_gt_dec (Zpos (digits2_pos m)) 53) as [L|G]; [exact L|].
  pose proof (digits2_pos_lower m) as Hl.
  assert (2 ^ 53 <= 2 ^ (Zpos (digits2_pos m) - 1))
    by (apply Z.pow_le_mono_r; lia).
  lia.
Qed.

Lemma binary_round_aux_canonical (mz : positive) (ez : Z) :
  fexp prec emax (Zpos (digits2_pos mz) + ez) = ez ->
  ez <= emax - prec ->
  binary_round_aux prec emax false (Zpos mz) ez loc_Exact
  = S754_finite false mz ez.
Proof.
  intros Hc He; unfold binary_round_aux, shr_fexp.
  cbn [Zdigits2]; rewrite Hc, Z.sub_diag.
  cbn [shr shr_record_of_loc shr_m loc_of_shr_record round_nearest_even].
  cbn [Zdigits2]; rewrite Hc, Z.sub_diag.
  cbn [shr shr_record_of_loc shr_m].
  apply Z.leb_le in He; rewrite He; reflexivity.
Qed.

(** Up to [2^53] the rounding is exact. *)
Lemma number_of_Z_exact (z : Z) :
  0 <= z < 2 ^ 53 -> integer_value (number_of_Z z false) = Some z.
Proof.
  intros [H0 H1]; destruct z as [|m|m]; [reflexivity| |lia].
  pose proof (digits2_pos_safe H1) as Hd.
  unfold number_of_Z, binary_normalize, binary_round.
  assert (Hf : fexp prec emax (Zpos (digits2_pos m) + 0)
               = Zpos (digits2_pos m) - 53)
    by (unfold fexp, emin, prec, emax; lia).
  rewrite Hf; unfold shl_align.
  destruct (Zpos (digits2_pos m) - 53 - 0) as [|k|k] eqn:Hk; try lia.
  - rewrite binary_round_aux_canonical;
      [reflexivity | unfold fexp, emin, prec, emax; lia
       | unfold prec, emax; lia].
  - rewrite binary_round_aux_canonical.
    + unfold integer_value, integral_part.
      replace (Zpos (digits2_pos m) - 53) with (Zneg k) by lia.
      rewrite iter_xO_value, Z.shiftr_div_pow2, Z.shiftl_mul_pow2 by lia.
      rewrite Z.div_mul by (apply Z.pow_nonzero; lia).
      rewrite Z.eqb_refl; reflexivity.
    + rewrite digits2_pos_iter, Pos2Z.inj_add.
      unfold fexp, emin, prec, emax; lia.
    + unfold prec, emax; lia.
Qed.

(** Peels the successful steps off a computation that ended with [Ok]. *)
Ltac invert_binds H :=
  repeat match type of H with
         | bind (Ok _) _ = _ => cbn [bind] in H
         | bind _ _ = Ok _ =>
             let a := fresh "a" in
             let E := fresh "E" in
             apply bind_ok in H; destruct H as (a & E & H)
         end.

(** What a successful run of [mapRadioStation] computed. *)
Lemma mapRadioStation_inv (station : value) (st : Station.t) :
  mapRadioStation station = Ok st ->
  nullish station = false /\
  parseInt (logical_or (field station (lit "st_play_cnt")) (Str (lit "0")))
    = Ok (Station.playCount st) /\
  parseInt (logical_or (field station (lit "st_fav_cnt")) (Str (lit "0")))
    = Ok (Station.favoriteCount st) /\
  Station.frequency st
    = (if is_string (field station (lit "st_bc_freq")) (lit "~") then Null
       else field station (lit "st_bc_freq")) /\
  exists text, ToString (field station (lit "st_shorturl")) = Ok text /\
               Station.listenUrl st = LISTEN_BASE ++ text.
Proof.
  unfold mapRadioStation, get; intros H.
  destruct (nullish station) eqn:Hn; [discriminate H|].
  split; [reflexivity|].
  invert_binds H. inversion H; subst st; clear H; cbn.
  repeat split; auto.
  - destruct (is_string _ _); inversion E; reflexivity.
  - eauto.
Qed.

(** What a successful run of [mapPodcast] computed. *)
Lemma mapPodcast_inv (podcast : value) (pd : Podcast.t) :
  mapPodcast podcast = Ok pd ->
  nullish podcast = false /\
  parseInt (logical_or (field podcast (lit "total_stream")) (Str (lit "0")))
    = Ok (Podcast.totalStream pd).
Proof.
  unfold mapPodcast, get; intros H.
  destruct (nullish podcast) eqn:Hn; [discriminate H|].
  split; [reflexivity|].
  invert_binds H. inversion H; subst pd; clear H; cbn.
  assumption.
Qed.

(* ================================================================== *)
(** * Counters *)

Lemma counter_of_parseInt (raw : value) (n : number) :
  counter_of raw n -> parseInt (logical_or raw (Str (lit "0"))) = Ok n.
Proof.
  intros [station st H|station st H|podcast pd H].
  - apply mapRadioStation_inv in H; tauto.
  - apply mapRadioStation_inv in H; tauto.
  - apply mapPodcast_inv in H; tauto.
Qed.

Lemma digit_not_whitespace (c : N) :
  is_digit c = true -> is_whitespace c = false.
Proof.
  unfold is_digit, is_whitespace; intros H.
  apply andb_true_iff in H; destruct H as [H1 H2].
  apply N.leb_le in H1, H2. cbn [existsb].
  repeat match goal with
         | |- context [(c =? ?k)%N] =>
             replace (c =? k)%N with false
               by (symmetry; apply N.eqb_neq; lia)
         end.
  replace (8192 <=? c)%N with false by (symmetry; apply N.leb_gt; lia).
  reflexivity.
Qed.

Lemma digit_prefix_all (s : jstring) :
  forallb is_digit s = true -> digit_prefix s = s.
Proof.
  induction s as [|c rest IH]; simpl; auto.
  intros H; apply andb_true_iff in H; destruct H as [Hc Hr].
  rewrite Hc, IH; auto.
Qed.

Lemma decimal_digits_nonneg (digits : jstring) (acc : Z) :
  forallb is_digit digits = true -> 0 <= acc ->
  0 <= fold_left (fun acc c => 10 * acc + digit_value c) digits acc.
Proof.
  revert acc; induction digits as [|c rest IH]; cbn [fold_left forallb];
    intros acc H Ha; [exact Ha|].
  apply andb_true_iff in H; destruct H as [Hc Hr].
  apply IH; [exact Hr|].
  unfold is_digit in Hc; apply andb_true_iff in Hc; destruct Hc as [H1 _].
  apply N.leb_le in H1; unfold digit_value; lia.
Qed.

Lemma decimal_value_nonneg (d : jstring) :
  numeric_string d = true -> 0 <= decimal_value d.
Proof.
  intros H; apply decimal_digits_nonneg; [|lia].
  destruct d; [discriminate H | exact H].
Qed.

(** On a numeric string [parseInt] reads every digit. *)
Lemma parseInt_string_numeric (d : jstring) :
  numeric_string d = true ->
  parseInt_string d = number_of_Z (decimal_value d) false.
Proof.
  destruct d as [|c rest]; [discriminate|].
  unfold numeric_string; intros H.
  pose proof (digit_prefix_all _ H) as Hp.
  cbn [forallb] in H; apply andb_true_iff in H; destruct H as [Hc _].
  unfold parseInt_string; cbn [trim_start].
  rewrite (digit_not_whitespace _ Hc).
  unfold is_digit in Hc; apply andb_true_iff in Hc; destruct Hc as [H1 H2].
  apply N.leb_le in H1, H2.
  replace (c =? 45)%N with false by (symmetry; apply N.eqb_neq; lia).
  replace (c =? 43)%N with false by (symmetry; apply N.eqb_neq; lia).
  rewrite Hp; reflexivity.
Qed.

(** A string that starts with neither white space, sign nor digit has
    no integer to read. *)
Lemma parseInt_string_non_numeric (s : jstring) :
  starts_non_numeric s = true -> parseInt_string s = NaN.
Proof.
  destruct s as [|c rest]; [discriminate|].
  unfold starts_non_numeric, is_sign; intros H.
  apply negb_true_iff in H.
  apply orb_false_iff in H; destruct H as [H Hd].
  apply orb_false_iff in H; destruct H as [Hw Hs].
  apply orb_false_iff in Hs; destruct Hs as [Hm Hp].
  unfold parseInt_string; cbn [trim_start].
  rewrite Hw, Hm, Hp; cbn [digit_prefix]; rewrite Hd; reflexivity.
Qed.

(** C1, as the code has it: each normalized counter of a station
    ([playCount], [favoriteCount]) and of a podcast ([totalStream]) is
    0 when the raw value is missing, [null] or the empty string; it is
    the Number of the base-10 integer a numeric string denotes, which is
    never [NaN] and is that very integer below [2^53]; and it is [NaN]
    when the raw value is a string that starts with a character no
    integer starts with.  The counter is a Number in every case, never a
    string. *)
Theorem counter_parse_or_zero (raw : value) (n : number) :
  counter_of raw n ->
  (missing_or_empty raw = true -> n = zero) /\
  (forall d, raw = Str d -> numeric_string d = true ->
             n = number_of_Z (decimal_value d) false /\ n <> NaN /\
             (decimal_value d < 2 ^ 53 ->
              integer_value n = Some (decimal_value d))) /\
  (forall s, raw = Str s -> starts_non_numeric s = true -> n = NaN).
Proof.
  intros H; apply counter_of_parseInt in H.
  split; [|split].
  - intros Hm.
    assert (Hz : logical_or raw (Str (lit "0")) = Str (lit "0"))
      by (destruct raw as [| | | |[|]| |]; try discriminate; reflexivity).
    rewrite Hz in H; cbn in H; inversion H; reflexivity.
  - intros d -> Hd.
    assert (Ht : logical_or (Str d) (Str (lit "0")) = Str d)
      by (destruct d; [discriminate | reflexivity]).
    rewrite Ht in H; cbn [parseInt ToString bind] in H.
    rewrite (parseInt_string_numeric _ Hd) in H; inversion H.
    split; [reflexivity|]. split; [apply number_of_Z_not_nan|].
    intros Hsafe; apply number_of_Z_exact.
    split; [apply decimal_value_nonneg; exact Hd | exact Hsafe].
  - intros s -> Hs.
    assert (Ht : logical_or (Str s) (Str (lit "0")) = Str s)
      by (destruct s; [discriminate | reflexivity]).
    rewrite Ht in H; cbn [parseInt ToString bind] in H.
    rewrite (parseInt_string_non_numeric _ Hs) in H; inversion H.
    reflexivity.
Qed.

(* ================================================================== *)
(** * Frequency and listen URL *)

Lemma ToString_primitive (v : value) :
  primitive v = true -> exists s, ToString v = Ok s.
Proof.
  destruct v as [| |[|]| | | |]; simpl; intros H; eauto; discriminate.
Qed.

Lemma parseInt_primitive (v : value) :
  primitive v = true ->
  exists n, parseInt (logical_or v (Str (lit "0"))) = Ok n.
Proof.
  intros H; unfold parseInt.
  assert (Hp : primitive (logical_or v (Str (lit "0"))) = true)
    by (unfold logical_or; destruct (ToBoolean v); auto).
  destruct (ToString_primitive _ Hp) as [s ->]; cbn [bind]; eauto.
Qed.

(** X21: [mapRadioStation] returns on every item that is not [null] and
    whose counters and short url are primitive values. *)
Lemma mapRadioStation_total (station : value) :
  nullish station = false ->
  primitive (field station (lit "st_play_cnt")) = true ->
  primitive (field station (lit "st_fav_cnt")) = true ->
  primitive (field station (lit "st_shorturl")) = true ->
  exists st, mapRadioStation station = Ok st.
Proof.
  intros Hn Hp Hf Hs; unfold mapRadioStation, get; rewrite Hn; cbn [bind].
  destruct (parseInt_primitive _ Hp) as [n1 ->].
  destruct (parseInt_primitive _ Hf) as [n2 ->].
  destruct (ToString_primitive _ Hs) as [t ->].
  destruct (is_string _ _); cbn [bind]; eauto.
Qed.

(** X22: [mapPodcast] returns on every item that is not [null] and whose
    counter is a primitive value. *)
Lemma mapPodcast_total (podcast : value) :
  nullish podcast = false ->
  primitive (field podcast (lit "total_stream")) = true ->
  exists pd, mapPodcast podcast = Ok pd.
Proof.
  intros Hn Hp; unfold mapPodcast, get; rewrite Hn; cbn [bind].
  destruct (parseInt_primitive _ Hp) as [n1 ->]; cbn [bind]; eauto.
Qed.

(** C6: the normalized frequency of a station is [null] when the raw
    frequency is the string "~", and the raw value itself, unchanged,
    in every other case. *)
Theorem frequency_sentinel (station : value) (st : Station.t) :
  mapRadioStation station = Ok st ->
  (field station (lit "st_bc_freq") = Str (lit "~") ->
   Station.frequency st = Null) /\
  (field station (lit "st_bc_freq") <> Str (lit "~") ->
   Station.frequency st = field station (lit "st_bc_freq")).
Proof.
  intros H; apply mapRadioStation_inv in H.
  destruct H as (_ & _ & _ & Hf & _); rewrite Hf; split; intros Hraw.
  - rewrite Hraw; reflexivity.
  - destruct (is_string _ _) eqn:E; [|reflexivity].
    apply is_string_eq in E; contradiction.
Qed.

(** C7: the listen URL of a station is the base
    "https://appradiofm.com/radioplay/" followed by the raw short-url
    identifier. *)
Theorem listen_url_from_short_url
  (station : value) (st : Station.t) (shortUrl : jstring) :
  mapRadioStation station = Ok st ->
  field station (lit "st_shorturl") = Str shortUrl ->
  Station.listenUrl st = lit "https://appradiofm.com/radioplay/" ++ shortUrl.
Proof.
  intros H Hs; apply mapRadioStation_inv in H.
  destruct H as (_ & _ & _ & _ & text & Ht & Hu).
  rewrite Hs in Ht; inversion Ht; subst text; exact Hu.
Qed.

(* ================================================================== *)
(** * The handler, step by step *)

(** A blank query is answered at once. *)
Lemma search_blank (raw_query : value) :
  blank_query raw_query = true ->
  search raw_query = Ret (Responded MISSING_QUERY).
Proof.
  unfold search, blank_query.
  destruct raw_query as [| | | |s| |]; try discriminate; [reflexivity|].
  destruct s as [|c rest]; [reflexivity|].
  change (logical_or (Str (c :: rest)) (Str [])) with (Str (c :: rest)).
  cbn [call_trim].
  destruct (trim (c :: rest)); [reflexivity | discriminate].
Qed.

(** A query that is not blank leads to one call, and to what the [try]
    block makes of its answer. *)
Lemma run_search (upstream : request -> axios_result) (s : jstring) :
  trim s <> [] ->
  run upstream (search (Str s)) =
  match (apiData <- await (upstream (search_request (trim s)));;
         respond (trim s) apiData) with
  | Ok r => ([Called (search_request (trim s))], Responded r)
  | Throw err =>
      ([Called (search_request (trim s)); Logged (lit "Search error:") err],
       Responded INTERNAL_ERROR)
  end.
Proof.
  intros H; unfold search.
  assert (Hs : logical_or (Str s) (Str []) = Str s)
    by (destruct s; [contradiction H; reflexivity | reflexivity]).
  rewrite Hs; cbn [call_trim].
  assert (Ht : ToBoolean (Str (trim s)) = true)
    by (destruct (trim s); [contradiction H; reflexivity | reflexivity]).
  rewrite Ht; cbn [negb run].
  destruct (bind _ _); reflexivity.
Qed.

Lemma respond_no_payload (query : jstring) (apiData : value) :
  ToBoolean apiData = false \/
  ToBoolean (field apiData (lit "data")) = false ->
  respond query apiData = Ok UNEXPECTED_RESPONSE.
Proof.
  unfold respond; intros H.
  destruct (ToBoolean apiData) eqn:E; [|reflexivity].
  destruct H as [H|H]; [discriminate|].
  rewrite (get_ok _ _ (truthy_not_nullish _ E)); cbn [negb bind].
  rewrite H; reflexivity.
Qed.

Lemma respond_error_code (query : jstring) (apiData : value) :
  ToBoolean apiData = true ->
  ToBoolean (field apiData (lit "data")) = true ->
  is_zero (field (field apiData (lit "data")) (lit "ErrorCode")) = false ->
  respond query apiData =
  Ok {| status := 502;
        json := ErrorBody
                  (logical_or
                     (field (field apiData (lit "data")) (lit "ErrorMessage"))
                     API_ERROR_MESSAGE) |}.
Proof.
  unfold respond; intros Ha Hp Hc.
  rewrite Ha, (get_ok _ _ (truthy_not_nullish _ Ha)); cbn [negb bind].
  rewrite Hp, !(get_ok _ _ (truthy_not_nullish _ Hp)); cbn [negb bind].
  rewrite Hc; reflexivity.
Qed.

(* ================================================================== *)
(** * Validation and failures *)

(** C2: when the query parameter is absent, empty or white space only,
    the handler answers 400 with the fixed message and makes no outbound
    call, whatever the upstream would have answered. *)
Theorem blank_query_rejected
  (upstream : request -> axios_result) (raw_query : value) :
  blank_query raw_query = true ->
  run upstream (search raw_query) =
  ([], Responded
         {| status := 400;
            json := ErrorBody
                      (Str (lit "Missing required query parameter: query")) |})
  /\ outbound_calls (fst (run upstream (search raw_query))) = 0%nat.
Proof.
  intros H; rewrite (search_blank _ H); split; reflexivity.
Qed.

(** C4: when the payload of the upstream answer carries an error code
    that is not 0, the handler answers 502; the error message of the
    body is the upstream's own message when it has one (a value that is
    not empty), and "RadioFM API error" otherwise. *)
Theorem upstream_error_code
  (upstream : request -> axios_result) (s : jstring)
  (apiData payload message : value) :
  trim s <> [] ->
  upstream (search_request (trim s)) = Resolved apiData ->
  ToBoolean apiData = true ->
  field apiData (lit "data") = payload ->
  ToBoolean payload = true ->
  is_zero (field payload (lit "ErrorCode")) = false ->
  field payload (lit "ErrorMessage") = message ->
  (ToBoolean message = true ->
   snd (run upstream (search (Str s))) =
   Responded {| status := 502; json := ErrorBody message |}) /\
  (ToBoolean message = false ->
   snd (run upstream (search (Str s))) =
   Responded {| status := 502;
                json := ErrorBody (Str (lit "RadioFM API error")) |}).
Proof.
  intros Hq Hu Ha Hd Hp Hc Hm; subst payload message.
  rewrite (run_search _ _ Hq), Hu; cbn [await bind].
  rewrite (respond_error_code _ _ Ha Hp Hc); unfold logical_or.
  split; intros ->; reflexivity.
Qed.

(** C5, as the code has it: when the decoded body of the upstream
    answer is falsy (absent, empty, [null]) or its [data] property is
    (missing, [null], [false], 0, the empty string), the handler
    answers 502 with the message "Unexpected response from RadioFM API"
    right after its one call: nothing of the answer is extracted or
    mapped.  A [data] that is there but is no object (a non-empty
    string, a number, [true], an array) is not reported as a shape
    error: it has no error code to read, and the handler answers 502
    with the message "RadioFM API error". *)
Theorem upstream_shape_error
  (upstream : request -> axios_result) (s : jstring) (apiData : value) :
  trim s <> [] ->
  upstream (search_request (trim s)) = Resolved apiData ->
  (ToBoolean apiData = false \/
   ToBoolean (field apiData (lit "data")) = false ->
   run upstream (search (Str s)) =
   ([Called (search_request (trim s))],
    Responded
      {| status := 502;
         json := ErrorBody
                   (Str (lit "Unexpected response from RadioFM API")) |})) /\
  (ToBoolean apiData = true ->
   ToBoolean (field apiData (lit "data")) = true ->
   (forall props, field apiData (lit "data") <> Obj props) ->
   run upstream (search (Str s)) =
   ([Called (search_request (trim s))],
    Responded
      {| status := 502;
         json := ErrorBody (Str (lit "RadioFM API error")) |})).
Proof.
  intros Hq Hu; rewrite (run_search _ _ Hq), Hu; cbn [await bind].
  split.
  - intros H; rewrite (respond_no_payload _ _ H); reflexivity.
  - intros Ha Hp Ho.
    assert (Hf : forall k, field (field apiData (lit "data")) k = Undefined).
    { intros k; destruct (field apiData (lit "data")) as [| | | | | |props];
        try reflexivity.
      contradiction (Ho props eq_refl). }
    rewrite (respond_error_code _ _ Ha Hp) by (rewrite Hf; reflexivity).
    rewrite Hf; reflexivity.
Qed.

(** C9: when the outbound call fails, the handler answers 500 with one
    fixed message, the same for every failure; the failure is logged
    and the upstream was called exactly once. *)
Theorem transport_failure
  (upstream : request -> axios_result) (s : jstring) (err : js_error) :
  trim s <> [] ->
  upstream (search_request (trim s)) = Rejected err ->
  run upstream (search (Str s)) =
  ([Called (search_request (trim s)); Logged (lit "Search error:") err],
   Responded
     {| status := 500;
        json := ErrorBody
                  (Str (lit "Internal server error while searching RadioFM")) |})
  /\ outbound_calls (fst (run upstream (search (Str s)))) = 1%nat.
Proof.
  intros Hq Hu.
  rewrite (run_search _ _ Hq), Hu; cbn [await bind]; split; reflexivity.
Qed.

(** C10: when the payload is there but has no error code at all, the
    handler answers 502 as for an application error, with the upstream
    message if there is one and "RadioFM API error" if there is none;
    it neither succeeds nor reports a shape error. *)
Theorem missing_error_code
  (upstream : request -> axios_result) (s : jstring)
  (apiData payload : value) :
  trim s <> [] ->
  upstream (search_request (trim s)) = Resolved apiData ->
  ToBoolean apiData = true ->
  field apiData (lit "data") = payload ->
  ToBoolean payload = true ->
  field payload (lit "ErrorCode") = Undefined ->
  snd (run upstream (search (Str s))) =
  Responded
    {| status := 502;
       json := ErrorBody
                 (logical_or (field payload (lit "ErrorMessage"))
                    (Str (lit "RadioFM API error"))) |}
  /\ (field payload (lit "ErrorMessage") = Undefined ->
      snd (run upstream (search (Str s))) =
      Responded {| status := 502;
                   json := ErrorBody (Str (lit "RadioFM API error")) |}).
Proof.
  intros Hq Hu Ha Hd Hp Hc; subst payload.
  rewrite (run_search _ _ Hq), Hu; cbn [await bind].
  rewrite (respond_error_code _ _ Ha Hp) by (rewrite Hc; reflexivity).
  split; [reflexivity|]. intros ->; reflexivity.
Qed.

(* ================================================================== *)
(** * Buckets *)

Lemma mapM_normalized {A} (mapper : value -> exn A) (items : list value)
  (out : list A) :
  mapM mapper items = Ok out <-> normalized mapper items out.
Proof.
  unfold normalized; revert out.
  induction items as [|x rest IH]; intros out; cbn [mapM]; split; intros H.
  - inversion H; constructor.
  - inversion H; reflexivity.
  - invert_binds H; inversion H; subst out.
    constructor; [assumption | apply IH; assumption].
  - inversion H as [|? a ? tl Hx Hr]; subst.
    rewrite Hx; cbn [bind].
    apply IH in Hr; rewrite Hr; reflexivity.
Qed.

Lemma mapM_total {A} (mapper : value -> exn A) (items : list value) :
  Forall (fun raw => exists a, mapper raw = Ok a) items ->
  exists out, mapM mapper items = Ok out.
Proof.
  induction 1 as [|x rest [a Ha] _ [out IH]]; cbn [mapM]; [eauto|].
  rewrite Ha, IH; cbn [bind]; eauto.
Qed.

(** The callback of [find] reads the label of a bucket that is not
    [null]. *)
Lemma type_is_has_label (label : jstring) (b : value) :
  nullish b = false -> type_is label b = Ok (has_label label b).
Proof.
  intros H; unfold type_is; rewrite (get_ok _ _ H); reflexivity.
Qed.

Lemma find_in_ok (label : jstring) (buckets : list value) :
  Forall (fun b => nullish b = false) buckets ->
  find_in (type_is label) buckets = Ok (found (first_bucket label buckets)).
Proof.
  unfold first_bucket.
  induction 1 as [|b rest Hb _ IH]; cbn [find_in find]; [reflexivity|].
  rewrite (type_is_has_label _ _ Hb); cbn [bind].
  destruct (has_label label b); [reflexivity | exact IH].
Qed.

Lemma find_in_inv (label : jstring) (buckets : list value) (x : value) :
  find_in (type_is label) buckets = Ok x ->
  x = found (first_bucket label buckets).
Proof.
  unfold first_bucket.
  induction buckets as [|b rest IH]; cbn [find_in find]; intros H.
  - inversion H; reflexivity.
  - destruct (nullish b) eqn:Hb.
    + unfold type_is, get in H; rewrite Hb in H; discriminate H.
    + rewrite (type_is_has_label _ _ Hb) in H; cbn [bind] in H.
      destruct (has_label label b); [inversion H; reflexivity | auto].
Qed.

(** [apiData.data.Data || []] is the bucket list whenever [find] can be
    called on it. *)
Lemma array_find_inv (label : jstring) (data x : value) :
  array_find (type_is label) (logical_or data (Arr [])) = Ok x ->
  logical_or data (Arr []) = Arr (bucket_list data) /\
  x = found (first_bucket label (bucket_list data)).
Proof.
  unfold logical_or.
  destruct data as [| |[|]|[| | |]|[|]| |]; cbn; intros H;
    try discriminate H; try (inversion H; split; reflexivity).
  split; [reflexivity | apply find_in_inv; exact H].
Qed.

Lemma first_bucket_label (label : jstring) (buckets : list value) (b : value) :
  first_bucket label buckets = Some b -> exists props, b = Obj props.
Proof.
  intros H; apply find_some in H; destruct H as [_ H].
  unfold has_label in H; destruct b; try discriminate H; eauto.
Qed.

Lemma map_bucket_inv {A} (mapper : value -> exn A) (label : jstring)
  (buckets : list value) (out : list A) :
  map_bucket mapper (found (first_bucket label buckets)) = Ok out ->
  collection_of mapper label buckets out.
Proof.
  destruct (first_bucket label buckets) as [b|] eqn:E; cbn [found].
  - destruct (first_bucket_label _ _ E) as [props ->].
    unfold map_bucket; cbn [ToBoolean]; unfold get; cbn [nullish bind].
    destruct (field (Obj props) (lit "data")) as [| | | | |items|] eqn:F;
      cbn [isArray]; intros H;
      try (inversion H; eapply no_item_list; [exact E | rewrite F; reflexivity]).
    cbn [array_map] in H; apply mapM_normalized in H.
    eapply mapped_items; eauto.
  - unfold map_bucket; cbn [ToBoolean]; intros H; inversion H.
    apply no_bucket; exact E.
Qed.

Lemma map_bucket_ok {A} (mapper : value -> exn A) (label : jstring)
  (buckets : list value) :
  mappable mapper label buckets ->
  exists out, map_bucket mapper (found (first_bucket label buckets)) = Ok out.
Proof.
  intros Hm; unfold mappable in Hm.
  destruct (first_bucket label buckets) as [b|] eqn:E; cbn [found].
  - destruct (first_bucket_label _ _ E) as [props ->].
    unfold map_bucket; cbn [ToBoolean]; unfold get; cbn [nullish bind].
    destruct (field (Obj props) (lit "data")) as [| | | | |items|] eqn:F;
      cbn [isArray]; eauto.
    cbn [array_map]; apply mapM_total; eapply Hm; eauto.
  - unfold map_bucket; cbn [ToBoolean]; eauto.
Qed.

(** A collection with no bucket to come from is empty. *)
Lemma collection_of_no_bucket {A} (mapper : value -> exn A) (label : jstring)
  (buckets : list value) (out : list A) :
  first_bucket label buckets = None ->
  collection_of mapper label buckets out -> out = [].
Proof.
  intros E H; destruct H as [|b ? ?|b items out ? ? ?];
    [reflexivity | reflexivity | congruence].
Qed.

(** So is one whose bucket has no proper item list. *)
Lemma collection_of_no_item_list {A} (mapper : value -> exn A)
  (label : jstring) (buckets : list value) (b : value) (out : list A) :
  first_bucket label buckets = Some b ->
  isArray (field b (lit "data")) = false ->
  collection_of mapper label buckets out -> out = [].
Proof.
  intros E F H; destruct H as [|b' ? ?|b' items out E' F' ?];
    [reflexivity | reflexivity |].
  rewrite E in E'; inversion E'; subst b'.
  rewrite F' in F; discriminate F.
Qed.

(* ================================================================== *)
(** * Success *)

(** The only 200 of [respond] is the assembled search result. *)
Lemma respond_success_inv (q : jstring) (apiData : value) (r : response) :
  respond q apiData = Ok r ->
  status r = 200 ->
  exists ss ps,
    r = {| status := 200;
           json := ResultBody {| query := q;
                                 totalStations := length ss;
                                 totalPodcasts := length ps;
                                 stations := ss;
                                 podcasts := ps |} |} /\
    collection_of mapRadioStation (lit "radio")
      (bucket_list (field (field apiData (lit "data")) (lit "Data"))) ss /\
    collection_of mapPodcast (lit "podcast")
      (bucket_list (field (field apiData (lit "data")) (lit "Data"))) ps.
Proof.
  unfold respond; intros H Hs.
  destruct (ToBoolean apiData) eqn:Ha; cbn [negb] in H;
    [|inversion H; subst r; discriminate Hs].
  rewrite (get_ok _ _ (truthy_not_nullish _ Ha)) in H; cbn [bind] in H.
  destruct (ToBoolean (field apiData (lit "data"))) eqn:Hp; cbn [negb] in H;
    [|inversion H; subst r; discriminate Hs].
  rewrite !(get_ok _ _ (truthy_not_nullish _ Hp)) in H; cbn [bind] in H.
  destruct (is_zero _); cbn [negb] in H;
    [|inversion H; subst r; discriminate Hs].
  invert_binds H.
  apply array_find_inv in E; destruct E as [_ ->].
  apply array_find_inv in E0; destruct E0 as [_ ->].
  apply map_bucket_inv in E1, E2.
  inversion H; eauto.
Qed.

(** [find] goes through a readable list without an exception, and
    only through such a list. *)
Lemma readable_find_in (label : jstring) (buckets : list value) :
  readable label buckets = true ->
  find_in (type_is label) buckets = Ok (found (first_bucket label buckets)).
Proof.
  unfold first_bucket.
  induction buckets as [|b rest IH]; cbn [readable find_in find];
    [reflexivity|].
  intros H; apply andb_true_iff in H; destruct H as [Hb Hr].
  apply negb_true_iff in Hb.
  rewrite (type_is_has_label _ _ Hb); cbn [bind].
  destruct (has_label label b); [reflexivity | exact (IH Hr)].
Qed.

Lemma find_in_readable (label : jstring) (buckets : list value) (x : value) :
  find_in (type_is label) buckets = Ok x -> readable label buckets = true.
Proof.
  induction buckets as [|b rest IH]; cbn [readable find_in];
    [reflexivity|].
  destruct (nullish b) eqn:Hb.
  - unfold type_is, get; rewrite Hb; discriminate.
  - rewrite (type_is_has_label _ _ Hb); cbn [bind negb andb].
    destruct (has_label label b); [reflexivity | exact IH].
Qed.

Lemma normalized_mappable {A} (mapper : value -> exn A) (items : list value)
  (out : list A) :
  normalized mapper items out ->
  Forall (fun raw => exists a, mapper raw = Ok a) items.
Proof.
  induction 1; constructor; eauto.
Qed.

Lemma map_bucket_mappable {A} (mapper : value -> exn A) (label : jstring)
  (buckets : list value) (out : list A) :
  map_bucket mapper (found (first_bucket label buckets)) = Ok out ->
  mappable mapper label buckets.
Proof.
  intros H b items Hb Hi; rewrite Hb in H; cbn [found] in H.
  destruct (first_bucket_label _ _ Hb) as [props ->].
  unfold map_bucket in H; cbn [ToBoolean] in H.
  unfold get in H; cbn [nullish bind] in H.
  rewrite Hi in H; cbn [isArray array_map] in H.
  apply mapM_normalized in H; exact (normalized_mappable H).
Qed.

(** [respond] reaches its 200 on a readable bucket list whose selected
    items the mappers accept. *)
Lemma respond_success (q : jstring) (apiData : value) (buckets : list value) :
  ToBoolean apiData = true ->
  ToBoolean (field apiData (lit "data")) = true ->
  is_zero (field (field apiData (lit "data")) (lit "ErrorCode")) = true ->
  field (field apiData (lit "data")) (lit "Data") = Arr buckets ->
  readable (lit "radio") buckets = true ->
  readable (lit "podcast") buckets = true ->
  mappable mapRadioStation (lit "radio") buckets ->
  mappable mapPodcast (lit "podcast") buckets ->
  exists r, respond q apiData = Ok r /\ status r = 200.
Proof.
  intros Ha Hp Hc Hd Hb Hb' Hr Hq; unfold respond.
  rewrite Ha, (get_ok _ _ (truthy_not_nullish _ Ha)); cbn [negb bind].
  rewrite Hp, !(get_ok _ _ (truthy_not_nullish _ Hp)); cbn [negb bind].
  rewrite Hc, Hd; cbn [negb bind].
  change (logical_or (Arr buckets) (Arr [])) with (Arr buckets).
  cbn [array_find].
  rewrite (readable_find_in _ _ Hb), (readable_find_in _ _ Hb'); cbn [bind].
  destruct (map_bucket_ok Hr) as [ss ->].
  destruct (map_bucket_ok Hq) as [ps ->].
  cbn [bind]; eauto.
Qed.

(** On a bucket list, [respond] either reaches its 200, and then the
    list was readable and its selected items accepted, or throws. *)
Lemma respond_on_buckets (q : jstring) (apiData : value)
  (buckets : list value) :
  ToBoolean apiData = true ->
  ToBoolean (field apiData (lit "data")) = true ->
  is_zero (field (field apiData (lit "data")) (lit "ErrorCode")) = true ->
  field (field apiData (lit "data")) (lit "Data") = Arr buckets ->
  (exists r,
     respond q apiData = Ok r /\ status r = 200 /\
     readable (lit "radio") buckets = true /\
     readable (lit "podcast") buckets = true /\
     mappable mapRadioStation (lit "radio") buckets /\
     mappable mapPodcast (lit "podcast") buckets) \/
  (exists e, respond q apiData = Throw e).
Proof.
  intros Ha Hp Hc Hd; unfold respond.
  rewrite Ha, (get_ok _ _ (truthy_not_nullish _ Ha)); cbn [negb bind].
  rewrite Hp, !(get_ok _ _ (truthy_not_nullish _ Hp)); cbn [negb bind].
  rewrite Hc, Hd; cbn [negb bind].
  change (logical_or (Arr buckets) (Arr [])) with (Arr buckets).
  cbn [array_find].
  destruct (find_in (type_is (lit "radio")) buckets) as [rb|e] eqn:Er;
    cbn [bind]; [|right; eauto].
  destruct (find_in (type_is (lit "podcast")) buckets) as [pb|e] eqn:Ep;
    cbn [bind]; [|right; eauto].
  pose proof (find_in_readable _ _ Er) as Rr.
  pose proof (find_in_readable _ _ Ep) as Rp.
  apply find_in_inv in Er, Ep; subst rb pb.
  destruct (map_bucket mapRadioStation _) as [ss|e] eqn:Ms;
    cbn [bind]; [|right; eauto].
  destruct (map_bucket mapPodcast _) as [ps|e] eqn:Mp;
    cbn [bind]; [|right; eauto].
  left; eexists; split; [reflexivity|]. split; [reflexivity|].
  repeat split; eauto using map_bucket_mappable.
Qed.

(** C3, as the code has it: on every bucket list that the two searches
    can read (no element is [null] or [undefined] up to the first bucket
    labelled "radio", nor up to the first labelled "podcast") and whose
    two selected item lists hold only items the mappers accept, the
    handler takes the first bucket of each label; a kind with no such
    bucket, or whose bucket has no proper item list, gets the empty
    collection and the count 0, and the request still succeeds with the
    other kind filled from its own bucket.  On every other bucket list
    there is no partial result: the handler answers 500. *)
Theorem bucket_selection
  (upstream : request -> axios_result) (s : jstring)
  (apiData payload : value) (buckets : list value) :
  trim s <> [] ->
  upstream (search_request (trim s)) = Resolved apiData ->
  ToBoolean apiData = true ->
  field apiData (lit "data") = payload ->
  ToBoolean payload = true ->
  is_zero (field payload (lit "ErrorCode")) = true ->
  field payload (lit "Data") = Arr buckets ->
  (readable (lit "radio") buckets = true ->
   readable (lit "podcast") buckets = true ->
   mappable mapRadioStation (lit "radio") buckets ->
   mappable mapPodcast (lit "podcast") buckets ->
   exists ss ps,
     snd (run upstream (search (Str s))) =
     Responded
       {| status := 200;
          json := ResultBody {| query := trim s;
                                totalStations := length ss;
                                totalPodcasts := length ps;
                                stations := ss;
                                podcasts := ps |} |} /\
     collection_of mapRadioStation (lit "radio") buckets ss /\
     collection_of mapPodcast (lit "podcast") buckets ps /\
     (first_bucket (lit "radio") buckets = None ->
      ss = [] /\ length ss = 0%nat) /\
     (first_bucket (lit "podcast") buckets = None ->
      ps = [] /\ length ps = 0%nat) /\
     (forall b, first_bucket (lit "radio") buckets = Some b ->
                isArray (field b (lit "data")) = false ->
                ss = [] /\ length ss = 0%nat) /\
     (forall b, first_bucket (lit "podcast") buckets = Some b ->
                isArray (field b (lit "data")) = false ->
                ps = [] /\ length ps = 0%nat)) /\
  (exists r,
     snd (run upstream (search (Str s))) = Responded r /\
     (status r = 200 \/
      r = {| status := 500;
             json := ErrorBody
                       (Str (lit "Internal server error while searching RadioFM")) |}) /\
     (status r = 200 ->
      readable (lit "radio") buckets = true /\
      readable (lit "podcast") buckets = true /\
      mappable mapRadioStation (lit "radio") buckets /\
      mappable mapPodcast (lit "podcast") buckets)).
Proof.
  intros Hq Hu Ha Hd Hp Hc HD; subst payload.
  rewrite (run_search _ _ Hq), Hu; cbn [await bind].
  split.
  - intros Hb Hb' Hr Hm.
    destruct (respond_success (trim s) _ Ha Hp Hc HD Hb Hb' Hr Hm)
      as (r & Hok & Hs).
    destruct (respond_success_inv _ _ Hok Hs) as (ss & ps & -> & Cr & Cp).
    rewrite HD in Cr, Cp; cbn [bucket_list] in Cr, Cp.
    exists ss, ps; rewrite Hok.
    split; [reflexivity|].
    split; [exact Cr|]. split; [exact Cp|].
    repeat split.
    + eapply collection_of_no_bucket; eauto.
    + erewrite (collection_of_no_bucket (out := ss)); eauto.
    + eapply collection_of_no_bucket; eauto.
    + erewrite (collection_of_no_bucket (out := ps)); eauto.
    + eapply collection_of_no_item_list; eauto.
    + erewrite (collection_of_no_item_list (out := ss)); eauto.
    + eapply collection_of_no_item_list; eauto.
    + erewrite (collection_of_no_item_list (out := ps)); eauto.
  - destruct (respond_on_buckets (trim s) _ Ha Hp Hc HD)
      as [(r & -> & Hs & Hall)|(e & ->)].
    + exists r; split; [reflexivity|]. split; [left; exact Hs|].
      intros _; exact Hall.
    + eexists; split; [reflexivity|]. split; [right; reflexivity|].
      cbn; discriminate.
Qed.

(** A query that is no string with something left after trimming never
    gets a 200. *)
Lemma search_unusable_query
  (upstream : request -> axios_result) (raw_query : value) :
  (forall s, raw_query = Str s -> trim s = []) ->
  run upstream (search raw_query) = ([], Responded MISSING_QUERY) \/
  exists e, run upstream (search raw_query) = ([], Unhandled e).
Proof.
  intros H.
  destruct raw_query as [| |[|]|[| | |]|s| |];
    try (left; reflexivity); try (right; eexists; reflexivity).
  left; rewrite search_blank; [reflexivity|].
  unfold blank_query; rewrite (H s eq_refl); reflexivity.
Qed.

(** C8: every invocation that succeeds returns the trimmed query that
    was sent upstream, the two normalized lists in full, and for each
    its length as the total. *)
Theorem search_result_assembly
  (upstream : request -> axios_result) (raw_query : value)
  (trace : list event) (r : response) :
  run upstream (search raw_query) = (trace, Responded r) ->
  status r = 200 ->
  exists s apiData ss ps,
    raw_query = Str s /\
    trace = [Called (search_request (trim s))] /\
    upstream (search_request (trim s)) = Resolved apiData /\
    json r = ResultBody {| query := trim s;
                           totalStations := length ss;
                           totalPodcasts := length ps;
                           stations := ss;
                           podcasts := ps |} /\
    collection_of mapRadioStation (lit "radio")
      (bucket_list (field (field apiData (lit "data")) (lit "Data"))) ss /\
    collection_of mapPodcast (lit "podcast")
      (bucket_list (field (field apiData (lit "data")) (lit "Data"))) ps.
Proof.
  intros H Hs.
  assert (Hq : exists s, raw_query = Str s /\ trim s <> []).
  { assert (D : (exists s, raw_query = Str s /\ trim s <> []) \/
                (forall s, raw_query = Str s -> trim s = [])).
    { destruct raw_query as [| | | |s| |];
        try (right; intros ? [=]; fail).
      destruct (list_eq_dec N.eq_dec (trim s) []) as [E|E];
        [right; intros ? [= <-]; exact E | left; eauto]. }
    destruct D as [D|D]; [exact D|].
    destruct (search_unusable_query upstream D) as [E|[e E]];
      rewrite E in H;
      [inversion H; subst r; discriminate Hs | discriminate H]. }
  destruct Hq as (s & -> & Hq).
  rewrite (run_search _ _ Hq) in H.
  destruct (upstream (search_request (trim s))) as [apiData|err] eqn:Hu;
    cbn [await bind] in H;
    [|inversion H; subst r; discriminate Hs].
  destruct (respond (trim s) apiData) as [r'|err] eqn:Hr;
    [|inversion H; subst r; discriminate Hs].
  inversion H; subst trace r'.
  destruct (respond_success_inv _ _ Hr Hs) as (ss & ps & -> & Cr & Cp).
  exists s, apiData, ss, ps; repeat split; auto.
Qed.

(* ================================================================== *)
(** * More on the mappers *)

(** X1: every field of a normalized station other than the frequency,
    the two counters and the listen URL is the raw property it renames,
    unchanged. *)
Theorem station_direct_renames (station : value) (st : Station.t) :
  mapRadioStation station = Ok st ->
  Station.id st = field station (lit "st_id") /\
  Station.name st = field station (lit "st_name") /\
  Station.logo st = field station (lit "st_logo") /\
  Station.website st = field station (lit "st_weburl") /\
  Station.shortUrl st = field station (lit "st_shorturl") /\
  Station.genre st = field station (lit "st_genre") /\
  Station.languageCode st = field station (lit "st_lang") /\
  Station.language st = field station (lit "language") /\
  Station.city st = field station (lit "st_city") /\
  Station.state st = field station (lit "st_state") /\
  Station.countryName st = field station (lit "country_name_rs") /\
  Station.countryCode st = field station (lit "st_country") /\
  Station.streamUrl st = field station (lit "stream_link") /\
  Station.streamType st = field station (lit "stream_type") /\
  Station.streamBitrate st = field station (lit "stream_bitrate") /\
  Station.deeplink st = field station (lit "deeplink").
Proof.
  unfold mapRadioStation, get; intros H.
  destruct (nullish station) eqn:Hn; [discriminate H|].
  invert_binds H. inversion H; subst st; clear H; cbn.
  repeat split.
Qed.

(** X2: every field of a normalized podcast other than the counter is
    the raw property it renames, unchanged. *)
Theorem podcast_direct_renames (podcast : value) (pd : Podcast.t) :
  mapPodcast podcast = Ok pd ->
  Podcast.id pd = field podcast (lit "p_id") /\
  Podcast.name pd = field podcast (lit "p_name") /\
  Podcast.description pd = field podcast (lit "p_desc") /\
  Podcast.language pd = field podcast (lit "p_lang") /\
  Podcast.image pd = field podcast (lit "p_image") /\
  Podcast.email pd = field podcast (lit "p_email") /\
  Podcast.category pd = field podcast (lit "cat_name") /\
  Podcast.deeplink pd = field podcast (lit "deeplink") /\
  Podcast.countryCode pd = field podcast (lit "cc_code").
Proof.
  unfold mapPodcast, get; intros H.
  destruct (nullish podcast) eqn:Hn; [discriminate H|].
  invert_binds H. inversion H; subst pd; clear H; cbn.
  repeat split.
Qed.

(** X3: a counter whose raw value is falsy, whatever its type ([false],
    a zero of either sign, [NaN], as well as a missing, [null] or empty
    one), is normalized to 0. *)
Theorem falsy_counter_is_zero (raw : value) (n : number) :
  counter_of raw n -> ToBoolean raw = false -> n = zero.
Proof.
  intros H Hf; apply counter_of_parseInt in H.
  unfold logical_or in H; rewrite Hf in H.
  cbn in H; inversion H; reflexivity.
Qed.

Lemma trim_start_app_whitespace (ws s : jstring) :
  forallb is_whitespace ws = true -> trim_start (ws ++ s) = trim_start s.
Proof.
  induction ws as [|c ws IH]; cbn [forallb app trim_start]; [reflexivity|].
  intros H; apply andb_true_iff in H; destruct H as [Hc Hw].
  rewrite Hc; auto.
Qed.

Lemma digit_prefix_app (d rest : jstring) :
  forallb is_digit d = true -> stops_digits rest = true ->
  digit_prefix (d ++ rest) = d.
Proof.
  intros Hd Hr; induction d as [|c d IH]; cbn [app digit_prefix].
  - destruct rest as [|c rest]; [reflexivity|].
    cbn [stops_digits] in Hr; apply negb_true_iff in Hr.
    cbn [digit_prefix]; rewrite Hr; reflexivity.
  - cbn [forallb] in Hd; apply andb_true_iff in Hd; destruct Hd as [Hc Hd].
    rewrite Hc, IH; auto.
Qed.

Lemma digit_not_sign (c : N) :
  is_digit c = true -> (c =? 45)%N = false /\ (c =? 43)%N = false.
Proof.
  unfold is_digit; intros H.
  apply andb_true_iff in H; destruct H as [H1 H2]; apply N.leb_le in H1, H2.
  split; apply N.eqb_neq; lia.
Qed.

(** [parseInt] reads the integer a string starts with and ignores what
    follows it. *)
Lemma parseInt_string_leading_integer (ws d rest : jstring) :
  forallb is_whitespace ws = true ->
  numeric_string d = true ->
  stops_digits rest = true ->
  parseInt_string (ws ++ d ++ rest) = number_of_Z (decimal_value d) false.
Proof.
  intros Hw Hd Hr; unfold parseInt_string.
  rewrite (trim_start_app_whitespace _ _ Hw).
  destruct d as [|c d]; [discriminate Hd|]; unfold numeric_string in Hd.
  pose proof (digit_prefix_app _ _ Hd Hr) as Hp.
  cbn [forallb] in Hd; apply andb_true_iff in Hd; destruct Hd as [Hc _].
  cbn [app trim_start] in *.
  rewrite (digit_not_whitespace _ Hc).
  destruct (digit_not_sign _ Hc) as [-> ->].
  rewrite Hp; reflexivity.
Qed.

(** A sign in front of the digits is read: "-" negates, "+" does not. *)
Lemma parseInt_string_signed (ws d rest : jstring) (sign : N) :
  forallb is_whitespace ws = true ->
  is_sign sign = true ->
  numeric_string d = true ->
  stops_digits rest = true ->
  parseInt_string (ws ++ sign :: d ++ rest) =
  number_of_Z (if (sign =? 45)%N then - decimal_value d else decimal_value d)
    (sign =? 45)%N.
Proof.
  intros Hw Hs Hd Hr; unfold parseInt_string.
  rewrite (trim_start_app_whitespace _ _ Hw).
  destruct d as [|c d]; [discriminate Hd|]; unfold numeric_string in Hd.
  pose proof (digit_prefix_app _ _ Hd Hr) as Hp.
  unfold is_sign in Hs; apply orb_true_iff in Hs.
  destruct Hs as [Hs|Hs]; apply N.eqb_eq in Hs; subst sign.
  - change (trim_start (45%N :: (c :: d) ++ rest))
      with (45%N :: (c :: d) ++ rest).
    cbv beta iota zeta; change (45 =? 45)%N with true; cbv beta iota zeta.
    rewrite Hp; reflexivity.
  - change (trim_start (43%N :: (c :: d) ++ rest))
      with (43%N :: (c :: d) ++ rest).
    cbv beta iota zeta.
    change (43 =? 45)%N with false; change (43 =? 43)%N with true.
    cbv beta iota zeta.
    rewrite Hp; reflexivity.
Qed.

(** X4: a counter whose raw value is a string that starts, after
    optional white space, with decimal digits followed by anything that
    is no digit is the Number of those leading digits: what follows them
    (letters, a fraction) is dropped, and the result is not [NaN]. *)
Theorem counter_reads_leading_digits
  (raw : value) (n : number) (ws d rest : jstring) :
  counter_of raw n ->
  raw = Str (ws ++ d ++ rest) ->
  forallb is_whitespace ws = true ->
  numeric_string d = true ->
  stops_digits rest = true ->
  n = number_of_Z (decimal_value d) false /\ n <> NaN.
Proof.
  intros H -> Hw Hd Hr; apply counter_of_parseInt in H.
  assert (Ht : logical_or (Str (ws ++ d ++ rest)) (Str (lit "0"))
               = Str (ws ++ d ++ rest))
    by (destruct ws; [destruct d; [discriminate Hd|]|]; reflexivity).
  rewrite Ht in H; cbn [parseInt ToString bind] in H.
  rewrite (parseInt_string_leading_integer _ _ _ Hw Hd Hr) in H.
  inversion H; split; [reflexivity | apply number_of_Z_not_nan].
Qed.

(** X5: a sign in front of the digits of a raw counter is kept: with
    "-" the counter is the negated integer (a negative zero for
    "-0"), with "+" the integer itself.  No counter is rejected for
    being negative. *)
Theorem counter_keeps_sign
  (raw : value) (n : number) (ws d rest : jstring) (sign : N) :
  counter_of raw n ->
  raw = Str (ws ++ sign :: d ++ rest) ->
  forallb is_whitespace ws = true ->
  is_sign sign = true ->
  numeric_string d = true ->
  stops_digits rest = true ->
  n = number_of_Z (if (sign =? 45)%N then - decimal_value d
                   else decimal_value d) (sign =? 45)%N.
Proof.
  intros H -> Hw Hs Hd Hr; apply counter_of_parseInt in H.
  assert (Ht : logical_or (Str (ws ++ sign :: d ++ rest)) (Str (lit "0"))
               = Str (ws ++ sign :: d ++ rest))
    by (destruct ws; reflexivity).
  rewrite Ht in H; cbn [parseInt ToString bind] in H.
  rewrite (parseInt_string_signed _ _ _ _ Hw Hs Hd Hr) in H.
  inversion H; reflexivity.
Qed.

(** X6: when the raw short url is missing, the listen URL is the base
    followed by the text "undefined"; when it is [null], by "null". *)
Theorem listen_url_without_short_url (station : value) (st : Station.t) :
  mapRadioStation station = Ok st ->
  (field station (lit "st_shorturl") = Undefined ->
   Station.listenUrl st = lit "https://appradiofm.com/radioplay/undefined") /\
  (field station (lit "st_shorturl") = Null ->
   Station.listenUrl st = lit "https://appradiofm.com/radioplay/null").
Proof.
  intros H; apply mapRadioStation_inv in H.
  destruct H as (_ & _ & _ & _ & text & Ht & Hu).
  split; intros Hs; rewrite Hs in Ht; inversion Ht; subst text; exact Hu.
Qed.

(** X7: the mappers validate nothing: an item that is not an object
    (a number, a string, a boolean, an array) is normalized like an
    object without properties, to a record whose fields are all
    [undefined], whose counters are 0 and whose listen URL ends in
    "undefined". *)
Theorem non_object_item_is_blank (item : value) :
  nullish item = false ->
  (forall props, item <> Obj props) ->
  mapRadioStation item = Ok blank_station /\
  mapPodcast item = Ok blank_podcast.
Proof.
  intros Hn Ho.
  destruct item as [| |b|n|s|items|props]; try discriminate Hn;
    try (split; reflexivity).
  contradiction (Ho props eq_refl).
Qed.

(* ================================================================== *)
(** * Every run of the handler *)

Lemma trim_start_starts_clean (s : jstring) : starts_clean (trim_start s) = true.
Proof.
  induction s as [|c s IH]; cbn [trim_start]; [reflexivity|].
  destruct (is_whitespace c) eqn:E; [exact IH|].
  cbn [starts_clean]; rewrite E; reflexivity.
Qed.

Lemma starts_clean_fixed (s : jstring) :
  starts_clean s = true -> trim_start s = s.
Proof.
  destruct s as [|c s]; cbn [starts_clean trim_start]; [reflexivity|].
  intros H; apply negb_true_iff in H; rewrite H; reflexivity.
Qed.

Lemma trim_start_keeps_last (l : jstring) (c : N) :
  is_whitespace c = false -> exists l', trim_start (l ++ [c]) = l' ++ [c].
Proof.
  intros Hc; induction l as [|x l IH]; cbn [app trim_start].
  - rewrite Hc; exists []; reflexivity.
  - destruct (is_whitespace x); [exact IH|].
    exists (x :: l); reflexivity.
Qed.

Lemma trim_end_starts_clean (s : jstring) :
  starts_clean s = true -> starts_clean (trim_end s) = true.
Proof.
  destruct s as [|c s]; [reflexivity|].
  cbn [starts_clean]; intros H; apply negb_true_iff in H.
  unfold trim_end; cbn [rev].
  destruct (trim_start_keeps_last (rev s) c H) as [l' ->].
  rewrite rev_app_distr; cbn [rev app starts_clean]; rewrite H; reflexivity.
Qed.

(** Trimming leaves nothing to trim. *)
Lemma trim_idempotent (s : jstring) : trim (trim s) = trim s.
Proof.
  unfold trim at 1.
  rewrite (starts_clean_fixed (trim s))
    by (apply trim_end_starts_clean, trim_start_starts_clean).
  unfold trim, trim_end; rewrite rev_involutive.
  rewrite (starts_clean_fixed (trim_start _))
    by apply trim_start_starts_clean.
  reflexivity.
Qed.

(** The three ways a run can go. *)
Lemma search_outcomes (upstream : request -> axios_result) (raw_query : value) :
  run upstream (search raw_query) = ([], Responded MISSING_QUERY) \/
  run upstream (search raw_query) = ([], Unhandled TypeError) \/
  exists s,
    raw_query = Str s /\ trim s <> [] /\
    ((exists r,
        after_call (trim s) (upstream (search_request (trim s))) = Ok r /\
        run upstream (search raw_query)
        = ([Called (search_request (trim s))], Responded r)) \/
     (exists err,
        after_call (trim s) (upstream (search_request (trim s))) = Throw err /\
        run upstream (search raw_query)
        = ([Called (search_request (trim s));
            Logged (lit "Search error:") err],
           Responded INTERNAL_ERROR))).
Proof.
  destruct raw_query as [| |[|]|[| | |]|s| |];
    try (left; reflexivity); try (right; left; reflexivity).
  destruct (list_eq_dec N.eq_dec (trim s) []) as [E|E].
  - left; rewrite search_blank; [reflexivity|].
    unfold blank_query; rewrite E; reflexivity.
  - right; right; exists s; split; [reflexivity|]. split; [exact E|].
    rewrite (run_search _ _ E); fold (after_call (trim s)
                                        (upstream (search_request (trim s)))).
    destruct (after_call _ _) as [r|err]; [left | right]; eauto.
Qed.

(** [respond] itself only answers 502, with an error, or 200, with a
    result. *)
Lemma respond_statuses (q : jstring) (apiData : value) (r : response) :
  respond q apiData = Ok r ->
  (status r = 502 /\ exists e, json r = ErrorBody e) \/
  (status r = 200 /\ exists res, json r = ResultBody res).
Proof.
  unfold respond; intros H.
  destruct (ToBoolean apiData) eqn:Ha; cbn [negb] in H;
    [|inversion H; left; cbn; eauto].
  rewrite (get_ok _ _ (truthy_not_nullish _ Ha)) in H; cbn [bind] in H.
  destruct (ToBoolean (field apiData (lit "data"))) eqn:Hp; cbn [negb] in H;
    [|inversion H; left; cbn; eauto].
  rewrite !(get_ok _ _ (truthy_not_nullish _ Hp)) in H; cbn [bind] in H.
  destruct (is_zero _); cbn [negb] in H;
    [|inversion H; left; cbn; eauto].
  invert_binds H; inversion H; right; cbn; eauto.
Qed.

Lemma after_call_statuses (q : jstring) (answer : axios_result) (r : response) :
  after_call q answer = Ok r ->
  (status r = 502 /\ exists e, json r = ErrorBody e) \/
  (status r = 200 /\ exists res, json r = ResultBody res).
Proof.
  unfold after_call; destruct answer as [apiData|err]; cbn [await bind];
    [apply respond_statuses | discriminate].
Qed.

(** X8: whatever the query and whatever the upstream, the handler makes
    at most one outbound call, and it makes one exactly when the query
    is a string that is not blank. *)
Theorem at_most_one_call
  (upstream : request -> axios_result) (raw_query : value) :
  (outbound_calls (fst (run upstream (search raw_query))) <= 1)%nat /\
  (outbound_calls (fst (run upstream (search raw_query))) = 1%nat <->
   exists s, raw_query = Str s /\ trim s <> []).
Proof.
  destruct (search_outcomes upstream raw_query)
    as [E|[E|(s & -> & Hs & [(r & _ & E)|(err & _ & E)])]]; rewrite E;
    cbn; (split; [lia|]); split; intros H; try discriminate H;
    try reflexivity; eauto.
  - destruct H as (s & -> & Hs).
    rewrite (run_search _ _ Hs) in E; destruct (bind _ _); discriminate E.
  - destruct H as (s & -> & Hs).
    rewrite (run_search _ _ Hs) in E; destruct (bind _ _); discriminate E.
Qed.

(** X9: every outbound call of the handler is a GET of
    [new_combo_search.php] under the fixed base, with a timeout of
    15000 ms and the single parameter [srch]; its value is the trimmed
    query, which is not empty and has no white space left at either
    end. *)
Theorem outbound_request_shape
  (upstream : request -> axios_result) (raw_query : value) (req : request) :
  In (Called req) (fst (run upstream (search raw_query))) ->
  exists s,
    raw_query = Str s /\
    req = {| url := lit "https://devappradiofm.radiofm.co/rfm/api/new_combo_search.php";
             params := [(lit "srch", Str (trim s))];
             timeout := 15000 |} /\
    trim s <> [] /\
    trim (trim s) = trim s.
Proof.
  destruct (search_outcomes upstream raw_query)
    as [E|[E|(s & -> & Hs & [(r & _ & E)|(err & _ & E)])]]; rewrite E;
    cbn [fst In]; intros H; try contradiction.
  - destruct H as [H|[]]; inversion H; subst req.
    exists s; repeat split; auto using trim_idempotent.
  - destruct H as [H|[H|[]]]; inversion H; subst req.
    exists s; repeat split; auto using trim_idempotent.
Qed.

(** X10: the handler writes its log line exactly when it answers 500,
    and it answers 500 only after its call: a failure of the call or an
    exception while the answer is read. *)
Theorem logs_exactly_on_500
  (upstream : request -> axios_result) (raw_query : value) :
  ((exists label err,
      In (Logged label err) (fst (run upstream (search raw_query)))) <->
   (exists r, snd (run upstream (search raw_query)) = Responded r /\
              status r = 500)) /\
  (forall r, snd (run upstream (search raw_query)) = Responded r ->
             status r = 500 ->
             outbound_calls (fst (run upstream (search raw_query))) = 1%nat).
Proof.
  destruct (search_outcomes upstream raw_query)
    as [E|[E|(s & -> & Hs & [(r & Hr & E)|(err & _ & E)])]]; rewrite E;
    cbn [fst snd In]; (split; [split|]).
  - intros (? & ? & []).
  - intros (r & H & Hs); inversion H; subst r; discriminate Hs.
  - intros r H Hs; inversion H; subst r; discriminate Hs.
  - intros (? & ? & []).
  - intros (r & H & _); discriminate H.
  - intros r H; discriminate H.
  - intros (? & ? & [H|[]]); discriminate H.
  - intros (r' & H & Hs'); inversion H; subst r'.
    destruct (after_call_statuses _ _ Hr) as [[H5 _]|[H2 _]]; congruence.
  - intros; reflexivity.
  - intros _; exists INTERNAL_ERROR; split; reflexivity.
  - intros _; eauto.
  - intros; reflexivity.
Qed.

(** X11: every response of the handler has status 200, 400, 500 or
    502; its body is a search result when the status is 200 and an
    error message in every other case. *)
Theorem response_statuses
  (upstream : request -> axios_result) (raw_query : value) (r : response) :
  snd (run upstream (search raw_query)) = Responded r ->
  known_status (status r) = true /\
  (status r = 200 -> exists res, json r = ResultBody res) /\
  (status r <> 200 -> exists e, json r = ErrorBody e).
Proof.
  destruct (search_outcomes upstream raw_query)
    as [E|[E|(s & -> & Hs & [(r' & Hr & E)|(err & _ & E)])]]; rewrite E;
    cbn [snd]; intros H; inversion H; subst r.
  - repeat split; [discriminate | cbn; eauto].
  - destruct (after_call_statuses _ _ Hr) as [[H5 He]|[H2 Hres]].
    + rewrite H5; repeat split; [discriminate | auto].
    + rewrite H2; repeat split; [auto | congruence].
  - repeat split; [discriminate | cbn; eauto].
Qed.

(** X12: a query that is a string is always answered: whatever the
    upstream does, answer, garbage or failure, the handler sends a
    response and its promise is not rejected. *)
Theorem string_query_is_answered
  (upstream : request -> axios_result) (s : jstring) :
  exists r, snd (run upstream (search (Str s))) = Responded r.
Proof.
  destruct (search_outcomes upstream (Str s))
    as [E|[E|(s' & _ & _ & [(r & _ & E)|(err & _ & E)])]]; rewrite E;
    cbn [snd]; eauto.
  exfalso; revert E.
  destruct (list_eq_dec N.eq_dec (trim s) []) as [B|B].
  - rewrite search_blank by (unfold blank_query; rewrite B; reflexivity).
    discriminate.
  - rewrite (run_search _ _ B); destruct (bind _ _); discriminate.
Qed.

(** X13: a query parameter that is neither absent nor a string (the
    array or the object a repeated or bracketed parameter is parsed to)
    has no [trim] to call: the exception is thrown before the [try],
    so the handler makes no call and sends no response of its own; its
    promise is rejected with a [TypeError]. *)
Theorem non_string_query_is_unhandled
  (upstream : request -> axios_result) (raw_query : value) :
  ToBoolean raw_query = true ->
  (forall s, raw_query <> Str s) ->
  run upstream (search raw_query) = ([], Unhandled TypeError).
Proof.
  intros Ht Hs.
  destruct raw_query as [| |[|]|n|s| |]; try discriminate Ht;
    try reflexivity.
  - destruct n; try discriminate Ht; reflexivity.
  - contradiction (Hs s eq_refl).
Qed.

(* ================================================================== *)
(** * Edges of the extraction *)

Lemma respond_extract (q : jstring) (apiData data : value) :
  success_envelope apiData data -> respond q apiData = extract q data.
Proof.
  intros (Ha & Hp & Hc & Hd); unfold respond, extract.
  rewrite Ha, (get_ok _ _ (truthy_not_nullish _ Ha)); cbn [negb bind].
  rewrite Hp, !(get_ok _ _ (truthy_not_nullish _ Hp)); cbn [negb bind].
  rewrite Hc, Hd; reflexivity.
Qed.

Lemma run_extract (upstream : request -> axios_result) (s : jstring)
  (apiData data : value) :
  trim s <> [] ->
  upstream (search_request (trim s)) = Resolved apiData ->
  success_envelope apiData data ->
  run upstream (search (Str s)) =
  match extract (trim s) data with
  | Ok r => ([Called (search_request (trim s))], Responded r)
  | Throw err =>
      ([Called (search_request (trim s)); Logged (lit "Search error:") err],
       Responded INTERNAL_ERROR)
  end.
Proof.
  intros Hq Hu He.
  rewrite (run_search _ _ Hq), Hu; cbn [await bind].
  rewrite (respond_extract _ He); reflexivity.
Qed.

Lemma mapM_throws {A} (mapper : value -> exn A) (items : list value) :
  Exists (fun raw => exists e, mapper raw = Throw e) items ->
  exists e, mapM mapper items = Throw e.
Proof.
  induction items as [|x rest IH]; intros H; [inversion H|].
  cbn [mapM]; destruct (mapper x) as [a|e] eqn:E; cbn [bind]; [|eauto].
  inversion H as [? ? [e' He']|? ? Hr]; subst; [congruence|].
  destruct (IH Hr) as [e ->]; cbn [bind]; eauto.
Qed.

Lemma map_bucket_throws {A} (mapper : value -> exn A) (label : jstring)
  (buckets : list value) :
  Exists (fun raw => exists e, mapper raw = Throw e)
    (selected_items label buckets) ->
  exists e, map_bucket mapper (found (first_bucket label buckets)) = Throw e.
Proof.
  unfold selected_items.
  destruct (first_bucket label buckets) as [b|] eqn:E; cbn [found];
    [|intros H; inversion H].
  destruct (first_bucket_label _ _ E) as [props ->].
  unfold map_bucket; cbn [ToBoolean]; unfold get; cbn [nullish bind].
  destruct (field (Obj props) (lit "data")) as [| | | | |items|];
    cbn [bucket_list isArray array_map]; intros H;
    try (inversion H; fail).
  apply mapM_throws; exact H.
Qed.

Lemma nullish_item_throws (item : value) :
  nullish item = true ->
  (exists e, mapRadioStation item = Throw e) /\
  (exists e, mapPodcast item = Throw e).
Proof.
  destruct item; try discriminate; intros _; split; eexists; reflexivity.
Qed.

Lemma find_in_throws (label : jstring) (pre post : list value) (x : value) :
  nullish x = true ->
  first_bucket label pre = None ->
  find_in (type_is label) (pre ++ x :: post) = Throw TypeError.
Proof.
  intros Hx; unfold first_bucket.
  induction pre as [|b pre IH]; cbn [app find find_in]; intros H.
  - unfold type_is, get; rewrite Hx; reflexivity.
  - destruct (nullish b) eqn:Hb.
    + unfold type_is, get; rewrite Hb; reflexivity.
    + rewrite (type_is_has_label _ _ Hb); cbn [bind].
      destruct (has_label label b); [discriminate H | auto].
Qed.

Lemma find_in_only_type_error (label : jstring) (buckets : list value)
  (e : js_error) :
  find_in (type_is label) buckets = Throw e -> e = TypeError.
Proof.
  induction buckets as [|b rest IH]; cbn [find_in]; [discriminate|].
  destruct (nullish b) eqn:Hb.
  - unfold type_is, get; rewrite Hb; cbn [bind]; intros H; inversion H.
    reflexivity.
  - rewrite (type_is_has_label _ _ Hb); cbn [bind].
    destruct (has_label label b); [discriminate | exact IH].
Qed.

(** Once a bucket has the label, what comes after the list is never
    looked at. *)
Lemma find_in_app (label : jstring) (buckets more : list value) (b : value) :
  first_bucket label buckets = Some b ->
  find_in (type_is label) (buckets ++ more)
  = find_in (type_is label) buckets.
Proof.
  unfold first_bucket.
  induction buckets as [|x rest IH]; cbn [app find find_in]; [discriminate|].
  intros H; destruct (nullish x) eqn:Hx.
  - unfold type_is, get; rewrite Hx; reflexivity.
  - rewrite (type_is_has_label _ _ Hx); cbn [bind].
    destruct (has_label label x); [reflexivity | auto].
Qed.

Lemma collection_of_selected {A} (mapper : value -> exn A) (label : jstring)
  (buckets : list value) (out : list A) :
  collection_of mapper label buckets out ->
  normalized mapper (selected_items label buckets) out.
Proof.
  unfold selected_items.
  intros [E|b E F|b items out' E F H]; rewrite E.
  - constructor.
  - destruct (field b (lit "data")); try constructor; discriminate F.
  - rewrite F; exact H.
Qed.

(** X14: when the payload's [Data] is there but is no array (a string,
    a number, an object), there is no [find] to call on it: the handler
    logs the [TypeError] and answers 500. *)
Theorem non_array_data_is_500
  (upstream : request -> axios_result) (s : jstring) (apiData data : value) :
  trim s <> [] ->
  upstream (search_request (trim s)) = Resolved apiData ->
  success_envelope apiData data ->
  ToBoolean data = true ->
  isArray data = false ->
  run upstream (search (Str s)) =
  ([Called (search_request (trim s));
    Logged (lit "Search error:") TypeError],
   Responded
     {| status := 500;
        json := ErrorBody
                  (Str (lit "Internal server error while searching RadioFM")) |}).
Proof.
  intros Hq Hu He Ht Ha.
  rewrite (run_extract _ _ Hq Hu He); unfold extract, logical_or.
  rewrite Ht; destruct data; try discriminate Ha; reflexivity.
Qed.

(** X15: when the payload's [Data] is absent ([null], or any other
    falsy value), the request succeeds with two empty collections and
    both totals 0. *)
Theorem absent_data_is_empty_success
  (upstream : request -> axios_result) (s : jstring) (apiData data : value) :
  trim s <> [] ->
  upstream (search_request (trim s)) = Resolved apiData ->
  success_envelope apiData data ->
  ToBoolean data = false ->
  run upstream (search (Str s)) =
  ([Called (search_request (trim s))],
   Responded
     {| status := 200;
        json := ResultBody {| query := trim s;
                              totalStations := 0;
                              totalPodcasts := 0;
                              stations := [];
                              podcasts := [] |} |}).
Proof.
  intros Hq Hu He Hf.
  rewrite (run_extract _ _ Hq Hu He); unfold extract, logical_or.
  rewrite Hf; reflexivity.
Qed.

(** X16: one [null] item in the item list of the selected radio bucket
    or of the selected podcast bucket fails the whole request: the
    handler logs the exception and answers 500, and returns nothing of
    the other items or of the other kind. *)
Theorem null_item_is_500
  (upstream : request -> axios_result) (s : jstring) (apiData : value)
  (buckets : list value) :
  trim s <> [] ->
  upstream (search_request (trim s)) = Resolved apiData ->
  success_envelope apiData (Arr buckets) ->
  Forall (fun b => nullish b = false) buckets ->
  Exists (fun item => nullish item = true)
    (selected_items (lit "radio") buckets) \/
  Exists (fun item => nullish item = true)
    (selected_items (lit "podcast") buckets) ->
  exists err,
    run upstream (search (Str s)) =
    ([Called (search_request (trim s)); Logged (lit "Search error:") err],
     Responded
       {| status := 500;
          json := ErrorBody
                    (Str (lit "Internal server error while searching RadioFM")) |}).
Proof.
  intros Hq Hu He Hb Hn.
  rewrite (run_extract _ _ Hq Hu He); unfold extract.
  change (logical_or (Arr buckets) (Arr [])) with (Arr buckets).
  cbn [array_find]; rewrite !(find_in_ok _ Hb); cbn [bind].
  destruct Hn as [Hn|Hn].
  - destruct (map_bucket_throws mapRadioStation (lit "radio") buckets)
      as [e ->]; [|cbn [bind]; eauto].
    eapply Exists_impl; [|exact Hn].
    intros item Hi; apply nullish_item_throws; exact Hi.
  - destruct (map_bucket mapRadioStation _) as [ss|e]; cbn [bind]; [|eauto].
    destruct (map_bucket_throws mapPodcast (lit "podcast") buckets)
      as [e ->]; [|cbn [bind]; eauto].
    eapply Exists_impl; [|exact Hn].
    intros item Hi; apply nullish_item_throws; exact Hi.
Qed.

(** X17: a [null] in the bucket list that comes before the first radio
    bucket, or before the first podcast bucket, fails the request: the
    handler logs the [TypeError] and answers 500. *)
Theorem null_bucket_is_500
  (upstream : request -> axios_result) (s : jstring) (apiData : value)
  (pre post : list value) (x : value) :
  trim s <> [] ->
  upstream (search_request (trim s)) = Resolved apiData ->
  success_envelope apiData (Arr (pre ++ x :: post)) ->
  nullish x = true ->
  first_bucket (lit "radio") pre = None \/
  first_bucket (lit "podcast") pre = None ->
  run upstream (search (Str s)) =
  ([Called (search_request (trim s));
    Logged (lit "Search error:") TypeError],
   Responded
     {| status := 500;
        json := ErrorBody
                  (Str (lit "Internal server error while searching RadioFM")) |}).
Proof.
  intros Hq Hu He Hx Hn.
  rewrite (run_extract _ _ Hq Hu He); unfold extract.
  change (logical_or (Arr (pre ++ x :: post)) (Arr []))
    with (Arr (pre ++ x :: post)).
  cbn [array_find].
  destruct Hn as [Hn|Hn].
  - rewrite (find_in_throws _ _ post _ Hx Hn); reflexivity.
  - destruct (find_in (type_is (lit "radio")) _) as [rb|e] eqn:E;
      cbn [bind].
    + rewrite (find_in_throws _ _ post _ Hx Hn); reflexivity.
    + apply find_in_only_type_error in E; subst e; reflexivity.
Qed.

(** X18: buckets that come after the first radio bucket and the first
    podcast bucket change nothing: whatever is appended to a list that
    has both, the handler does what it does on the list itself. *)
Theorem later_buckets_are_ignored
  (upstream upstream' : request -> axios_result) (s : jstring)
  (apiData apiData' : value) (buckets more : list value) (rb pb : value) :
  trim s <> [] ->
  upstream (search_request (trim s)) = Resolved apiData ->
  upstream' (search_request (trim s)) = Resolved apiData' ->
  success_envelope apiData (Arr buckets) ->
  success_envelope apiData' (Arr (buckets ++ more)) ->
  first_bucket (lit "radio") buckets = Some rb ->
  first_bucket (lit "podcast") buckets = Some pb ->
  run upstream' (search (Str s)) = run upstream (search (Str s)).
Proof.
  intros Hq Hu Hu' He He' Hr Hp.
  rewrite (run_extract _ _ Hq Hu He), (run_extract _ _ Hq Hu' He').
  unfold extract.
  change (logical_or (Arr (buckets ++ more)) (Arr []))
    with (Arr (buckets ++ more)).
  change (logical_or (Arr buckets) (Arr [])) with (Arr buckets).
  cbn [array_find].
  rewrite (find_in_app _ _ more Hr), (find_in_app _ _ more Hp).
  reflexivity.
Qed.

(* ================================================================== *)
(** * What a success says about the answer *)

Lemma is_zero_inv (v : value) :
  is_zero v = true -> exists negative, v = Num (S754_zero negative).
Proof.
  destruct v as [| | |[sgn| | |]| | |]; try discriminate; eauto.
Qed.

Lemma respond_success_envelope (q : jstring) (apiData : value) (r : response) :
  respond q apiData = Ok r ->
  status r = 200 ->
  exists data,
    success_envelope apiData data /\
    (ToBoolean data = false \/ exists buckets, data = Arr buckets).
Proof.
  unfold respond, success_envelope; intros H Hs.
  destruct (ToBoolean apiData) eqn:Ha; cbn [negb] in H;
    [|inversion H; subst r; discriminate Hs].
  rewrite (get_ok _ _ (truthy_not_nullish _ Ha)) in H; cbn [bind] in H.
  destruct (ToBoolean (field apiData (lit "data"))) eqn:Hp; cbn [negb] in H;
    [|inversion H; subst r; discriminate Hs].
  rewrite !(get_ok _ _ (truthy_not_nullish _ Hp)) in H; cbn [bind] in H.
  destruct (is_zero _) eqn:Hc; cbn [negb] in H;
    [|inversion H; subst r; discriminate Hs].
  invert_binds H.
  apply array_find_inv in E; destruct E as [E _].
  exists (field (field apiData (lit "data")) (lit "Data")).
  split; [repeat split; auto|].
  unfold logical_or in E.
  destruct (ToBoolean (field (field apiData (lit "data")) (lit "Data")))
    eqn:Hd; [right | left; reflexivity].
  rewrite E; eauto.
Qed.

(** Every 200 comes from an answer of the upstream that [respond]
    accepted. *)
Lemma success_inv (upstream : request -> axios_result) (raw_query : value)
  (r : response) :
  snd (run upstream (search raw_query)) = Responded r ->
  status r = 200 ->
  exists s apiData,
    raw_query = Str s /\
    upstream (search_request (trim s)) = Resolved apiData /\
    respond (trim s) apiData = Ok r.
Proof.
  destruct (search_outcomes upstream raw_query)
    as [E|[E|(s & -> & Hq & [(r' & Hr & E)|(err & _ & E)])]]; rewrite E;
    cbn [snd]; intros H Hs; inversion H; subst r; try discriminate Hs.
  unfold after_call in Hr.
  destruct (upstream (search_request (trim s))) as [apiData|err] eqn:Hu;
    cbn [await bind] in Hr; [eauto | discriminate Hr].
Qed.

(** X19: the handler answers 200 only to an upstream answer that has a
    payload whose error code is the Number 0 (no other number, and no
    string such as "0"), and whose [Data] is an array or is absent. *)
Theorem success_needs_zero_code
  (upstream : request -> axios_result) (raw_query : value) (r : response) :
  snd (run upstream (search raw_query)) = Responded r ->
  status r = 200 ->
  exists s apiData,
    raw_query = Str s /\
    upstream (search_request (trim s)) = Resolved apiData /\
    ToBoolean apiData = true /\
    ToBoolean (field apiData (lit "data")) = true /\
    (exists negative,
       field (field apiData (lit "data")) (lit "ErrorCode")
       = Num (S754_zero negative)) /\
    (ToBoolean (field (field apiData (lit "data")) (lit "Data")) = false \/
     exists buckets,
       field (field apiData (lit "data")) (lit "Data") = Arr buckets).
Proof.
  intros H Hs.
  destruct (success_inv _ _ H Hs) as (s & apiData & -> & Hu & Hr).
  destruct (respond_success_envelope _ _ Hr Hs)
    as (data & (Ha & Hp & Hc & Hd) & HD).
  exists s, apiData; repeat split; auto.
  - apply is_zero_inv; exact Hc.
  - rewrite Hd; exact HD.
Qed.

(** X20: in every successful response the stations are the items of
    the selected radio bucket, normalized one by one in their order,
    and the podcasts those of the selected podcast bucket: no item is
    dropped, added or moved, and each total is the number of raw items
    of its bucket. *)
Theorem totals_count_raw_items
  (upstream : request -> axios_result) (raw_query : value) (r : response)
  (res : SearchResult) :
  snd (run upstream (search raw_query)) = Responded r ->
  status r = 200 ->
  json r = ResultBody res ->
  exists s apiData,
    raw_query = Str s /\
    upstream (search_request (trim s)) = Resolved apiData /\
    let buckets :=
      bucket_list (field (field apiData (lit "data")) (lit "Data")) in
    normalized mapRadioStation (selected_items (lit "radio") buckets)
      (stations res) /\
    normalized mapPodcast (selected_items (lit "podcast") buckets)
      (podcasts res) /\
    totalStations res = length (selected_items (lit "radio") buckets) /\
    totalPodcasts res = length (selected_items (lit "podcast") buckets).
Proof.
  intros H Hs Hj.
  destruct (success_inv _ _ H Hs) as (s & apiData & -> & Hu & Hr).
  destruct (respond_success_inv _ _ Hr Hs) as (ss & ps & -> & Cr & Cp).
  cbn [json] in Hj; inversion Hj; subst res; cbn.
  apply collection_of_selected in Cr, Cp.
  exists s, apiData; repeat split; auto.
  - symmetry; exact (Forall2_length Cr).
  - symmetry; exact (Forall2_length Cp).
Qed.

(** X23: white space around the query is irrelevant: two query strings
    with the same trimmed form lead to the same run, call, log and
    response alike. *)
Theorem surrounding_white_space_is_ignored
  (upstream : request -> axios_result) (s s' : jstring) :
  trim s = trim s' ->
  run upstream (search (Str s)) = run upstream (search (Str s')).
Proof.
  intros H.
  destruct (list_eq_dec N.eq_dec (trim s) []) as [E|E].
  - rewrite !search_blank; [reflexivity | |];
      unfold blank_query; [rewrite <- H|]; rewrite E; reflexivity.
  - rewrite (run_search _ _ E).
    rewrite H in E; rewrite (run_search _ _ E), H; reflexivity.
Qed.

End Engine.

#[local] Existing Instance integer_printer.

(* ================================================================== *)
(** * The theorems at work *)

Lemma jazz_station_normalized : mapRadioStation jazz_station = Ok jazz_normalized.
Proof. vm_compute; reflexivity. Qed.

Lemma counter_parse_or_zero_witness :
  counter_of (Str (lit "42")) (number_of_Z 42 false) /\
  ((missing_or_empty (Str (lit "42")) = true -> number_of_Z 42 false = zero) /\
   (forall d, Str (lit "42") = Str d -> numeric_string d = true ->
              number_of_Z 42 false = number_of_Z (decimal_value d) false /\
              number_of_Z 42 false <> NaN /\
              (decimal_value d < 2 ^ 53 ->
               integer_value (number_of_Z 42 false)
               = Some (decimal_value d))) /\
   (forall s, Str (lit "42") = Str s -> starts_non_numeric s = true ->
              number_of_Z 42 false = NaN)).
Proof.
  assert (H : counter_of (Str (lit "42")) (number_of_Z 42 false))
    by exact (@play_count _ jazz_station jazz_normalized
                jazz_station_normalized).
  split; [exact H | exact (@counter_parse_or_zero _ _ _ H)].
Defined.

(** The claim C1 fails on a counter that is not numeric: the play count
    "N/A" is normalized to [NaN], not to 0. *)
Lemma non_numeric_counter_is_NaN :
  field unrated_station (lit "st_play_cnt") = Str (lit "N/A") /\
  numeric_string (lit "N/A") = false /\
  exists st, mapRadioStation unrated_station = Ok st /\
             Station.playCount st = NaN /\
             Station.playCount st <> zero.
Proof.
  split; [reflexivity|]. split; [reflexivity|].
  eexists; split; [vm_compute; reflexivity|].
  split; [reflexivity | discriminate].
Qed.

Lemma frequency_sentinel_witness :
  mapRadioStation jazz_station = Ok jazz_normalized /\
  ((field jazz_station (lit "st_bc_freq") = Str (lit "~") ->
    Station.frequency jazz_normalized = Null) /\
   (field jazz_station (lit "st_bc_freq") <> Str (lit "~") ->
    Station.frequency jazz_normalized
    = field jazz_station (lit "st_bc_freq"))).
Proof.
  split; [exact jazz_station_normalized|].
  exact (@frequency_sentinel _ jazz_station jazz_normalized
           jazz_station_normalized).
Defined.

Lemma unrated_station_normalized :
  exists st, mapRadioStation unrated_station = Ok st /\
             Station.frequency st = Str (lit "101.5").
Proof. eexists; split; vm_compute; reflexivity. Qed.

Lemma listen_url_from_short_url_witness :
  exists st,
    mapRadioStation unrated_station = Ok st /\
    field unrated_station (lit "st_shorturl") = Str (lit "X123") /\
    Station.listenUrl st = lit "https://appradiofm.com/radioplay/X123".
Proof.
  eexists; split; [vm_compute; reflexivity|].
  split; [reflexivity|].
  exact (@listen_url_from_short_url _ unrated_station _ (lit "X123")
           eq_refl eq_refl).
Defined.

Lemma blank_query_rejected_witness :
  blank_query (Str (lit "   ")) = true /\
  (run (answering jazz_answer) (search (Str (lit "   "))) =
   ([], Responded
          {| status := 400;
             json := ErrorBody
                       (Str (lit "Missing required query parameter: query")) |})
   /\ outbound_calls
        (fst (run (answering jazz_answer) (search (Str (lit "   "))))) = 0%nat).
Proof.
  split; [reflexivity|].
  apply (@blank_query_rejected _ (answering jazz_answer) (Str (lit "   "))).
  reflexivity.
Defined.

Lemma jazz_query_not_blank : trim (lit " jazz ") <> [].
Proof. vm_compute; discriminate. Qed.

Lemma upstream_error_code_witness :
  trim (lit " jazz ") <> [] /\
  answering no_results_answer (search_request (trim (lit " jazz ")))
  = Resolved no_results_answer /\
  ToBoolean no_results_answer = true /\
  field no_results_answer (lit "data") = no_results_payload /\
  ToBoolean no_results_payload = true /\
  is_zero (field no_results_payload (lit "ErrorCode")) = false /\
  field no_results_payload (lit "ErrorMessage") = Str (lit "No results") /\
  snd (run (answering no_results_answer) (search (Str (lit " jazz ")))) =
  Responded {| status := 502; json := ErrorBody (Str (lit "No results")) |}.
Proof.
  repeat (split; [first [exact jazz_query_not_blank | reflexivity]|]).
  apply (@upstream_error_code _ (answering no_results_answer) (lit " jazz ")
           no_results_answer no_results_payload (Str (lit "No results")));
    first [exact jazz_query_not_blank | reflexivity].
Defined.

Lemma upstream_shape_error_witness :
  trim (lit " jazz ") <> [] /\
  answering (Str []) (search_request (trim (lit " jazz "))) = Resolved (Str []) /\
  (ToBoolean (Str []) = false \/
   ToBoolean (field (Str []) (lit "data")) = false) /\
  run (answering (Str [])) (search (Str (lit " jazz "))) =
  ([Called (search_request (trim (lit " jazz ")))],
   Responded
     {| status := 502;
        json := ErrorBody (Str (lit "Unexpected response from RadioFM API")) |})
  /\
  answering stray_answer (search_request (trim (lit " jazz ")))
  = Resolved stray_answer /\
  ToBoolean stray_answer = true /\
  ToBoolean (field stray_answer (lit "data")) = true /\
  (forall props, field stray_answer (lit "data") <> Obj props) /\
  run (answering stray_answer) (search (Str (lit " jazz "))) =
  ([Called (search_request (trim (lit " jazz ")))],
   Responded
     {| status := 502;
        json := ErrorBody (Str (lit "RadioFM API error")) |}).
Proof.
  split; [exact jazz_query_not_blank|].
  split; [reflexivity|].
  split; [left; reflexivity|].
  split.
  { apply (@upstream_shape_error _ (answering (Str [])) (lit " jazz ") (Str []));
      [exact jazz_query_not_blank | reflexivity | left; reflexivity]. }
  do 3 (split; [reflexivity|]).
  split; [intros props; discriminate|].
  apply (@upstream_shape_error _ (answering stray_answer) (lit " jazz ")
           stray_answer);
    [exact jazz_query_not_blank | reflexivity | reflexivity | reflexivity
     | intros props; discriminate].
Defined.

(** The claim C5 fails on a payload that is no object: the body
    [{data: "oops"}] lacks the nested payload object, and is answered
    with the message of an application error, not with the
    unexpected-response message. *)
Lemma stray_payload_is_application_error :
  (forall props, field stray_answer (lit "data") <> Obj props) /\
  run (answering stray_answer) (search (Str (lit "jazz"))) =
  ([Called (search_request (lit "jazz"))],
   Responded
     {| status := 502;
        json := ErrorBody (Str (lit "RadioFM API error")) |}) /\
  Str (lit "RadioFM API error")
  <> Str (lit "Unexpected response from RadioFM API").
Proof.
  split; [intros props; discriminate|].
  split; [vm_compute; reflexivity | discriminate].
Qed.

Lemma transport_failure_witness :
  trim (lit " jazz ") <> [] /\
  timing_out (search_request (trim (lit " jazz ")))
  = Rejected (AxiosError (lit "timeout of 15000ms exceeded")) /\
  (run timing_out (search (Str (lit " jazz "))) =
   ([Called (search_request (trim (lit " jazz ")));
     Logged (lit "Search error:")
       (AxiosError (lit "timeout of 15000ms exceeded"))],
    Responded
      {| status := 500;
         json := ErrorBody
                   (Str (lit "Internal server error while searching RadioFM")) |})
   /\ outbound_calls (fst (run timing_out (search (Str (lit " jazz "))))) = 1%nat).
Proof.
  split; [exact jazz_query_not_blank|].
  split; [reflexivity|].
  apply (@transport_failure _ timing_out (lit " jazz ")
           (AxiosError (lit "timeout of 15000ms exceeded")));
    [exact jazz_query_not_blank | reflexivity].
Defined.

Lemma missing_error_code_witness :
  trim (lit " jazz ") <> [] /\
  answering uncoded_answer (search_request (trim (lit " jazz ")))
  = Resolved uncoded_answer /\
  ToBoolean uncoded_answer = true /\
  field uncoded_answer (lit "data") = uncoded_payload /\
  ToBoolean uncoded_payload = true /\
  field uncoded_payload (lit "ErrorCode") = Undefined /\
  snd (run (answering uncoded_answer) (search (Str (lit " jazz ")))) =
  Responded {| status := 502;
               json := ErrorBody (Str (lit "RadioFM API error")) |}.
Proof.
  repeat (split; [first [exact jazz_query_not_blank | reflexivity]|]).
  apply (@missing_error_code _ (answering uncoded_answer) (lit " jazz ")
           uncoded_answer uncoded_payload);
    first [exact jazz_query_not_blank | reflexivity].
Defined.

Lemma loose_stations_mappable :
  mappable mapRadioStation (lit "radio") loose_buckets.
Proof.
  intros b items Hb Hi.
  vm_compute in Hb; inversion Hb; subst b.
  vm_compute in Hi; inversion Hi; subst items.
  repeat constructor; eexists; vm_compute; reflexivity.
Qed.

Lemma loose_podcasts_mappable :
  mappable mapPodcast (lit "podcast") loose_buckets.
Proof.
  intros b items Hb Hi.
  vm_compute in Hb; inversion Hb; subst b.
  vm_compute in Hi; inversion Hi; subst items.
  repeat constructor; eexists; vm_compute; reflexivity.
Qed.

Lemma jazz_stations_mappable :
  mappable mapRadioStation (lit "radio") jazz_buckets.
Proof.
  intros b items Hb Hi.
  vm_compute in Hb; inversion Hb; subst b.
  vm_compute in Hi; inversion Hi; subst items.
  repeat constructor; eexists; vm_compute; reflexivity.
Qed.

Lemma jazz_podcasts_mappable :
  mappable mapPodcast (lit "podcast") jazz_buckets.
Proof.
  intros b items Hb Hi; vm_compute in Hb; discriminate Hb.
Qed.

Lemma bucket_selection_witness :
  (trim (lit " jazz ") <> [] /\
   answering (answer_with (Arr loose_buckets))
     (search_request (trim (lit " jazz ")))
   = Resolved (answer_with (Arr loose_buckets)) /\
   ToBoolean (answer_with (Arr loose_buckets)) = true /\
   field (answer_with (Arr loose_buckets)) (lit "data")
   = payload_with (Arr loose_buckets) /\
   ToBoolean (payload_with (Arr loose_buckets)) = true /\
   is_zero (field (payload_with (Arr loose_buckets)) (lit "ErrorCode")) = true /\
   field (payload_with (Arr loose_buckets)) (lit "Data") = Arr loose_buckets /\
   readable (lit "radio") loose_buckets = true /\
   readable (lit "podcast") loose_buckets = true /\
   mappable mapRadioStation (lit "radio") loose_buckets /\
   mappable mapPodcast (lit "podcast") loose_buckets /\
   exists ss ps,
     snd (run (answering (answer_with (Arr loose_buckets)))
            (search (Str (lit " jazz ")))) =
     Responded
       {| status := 200;
          json := ResultBody {| query := trim (lit " jazz ");
                                totalStations := length ss;
                                totalPodcasts := length ps;
                                stations := ss;
                                podcasts := ps |} |} /\
     collection_of mapRadioStation (lit "radio") loose_buckets ss /\
     collection_of mapPodcast (lit "podcast") loose_buckets ps) /\
  (answering jazz_answer (search_request (trim (lit " jazz ")))
   = Resolved jazz_answer /\
   ToBoolean jazz_answer = true /\
   field jazz_answer (lit "data") = jazz_payload /\
   ToBoolean jazz_payload = true /\
   is_zero (field jazz_payload (lit "ErrorCode")) = true /\
   field jazz_payload (lit "Data") = Arr jazz_buckets /\
   readable (lit "radio") jazz_buckets = true /\
   readable (lit "podcast") jazz_buckets = true /\
   mappable mapRadioStation (lit "radio") jazz_buckets /\
   mappable mapPodcast (lit "podcast") jazz_buckets /\
   exists ss ps,
     snd (run (answering jazz_answer) (search (Str (lit " jazz ")))) =
     Responded
       {| status := 200;
          json := ResultBody {| query := trim (lit " jazz ");
                                totalStations := length ss;
                                totalPodcasts := length ps;
                                stations := ss;
                                podcasts := ps |} |} /\
     collection_of mapRadioStation (lit "radio") jazz_buckets ss /\
     collection_of mapPodcast (lit "podcast") jazz_buckets ps /\
     ps = []).
Proof.
  split.
  - split; [exact jazz_query_not_blank|].
    do 8 (split; [reflexivity|]).
    split; [exact loose_stations_mappable|].
    split; [exact loose_podcasts_mappable|].
    destruct (@bucket_selection _
                (answering (answer_with (Arr loose_buckets)))
                (lit " jazz ") (answer_with (Arr loose_buckets))
                (payload_with (Arr loose_buckets)) loose_buckets
                jazz_query_not_blank eq_refl eq_refl eq_refl eq_refl eq_refl
                eq_refl)
      as [Hok _].
    destruct (Hok eq_refl eq_refl loose_stations_mappable
                loose_podcasts_mappable)
      as (ss & ps & Hrun & Hs & Hp & _).
    exists ss, ps; repeat split; assumption.
  - do 8 (split; [reflexivity|]).
    split; [exact jazz_stations_mappable|].
    split; [exact jazz_podcasts_mappable|].
    destruct (@bucket_selection _ (answering jazz_answer) (lit " jazz ")
                jazz_answer jazz_payload jazz_buckets
                jazz_query_not_blank eq_refl eq_refl eq_refl eq_refl eq_refl
                eq_refl)
      as [Hok _].
    destruct (Hok eq_refl eq_refl jazz_stations_mappable
                jazz_podcasts_mappable)
      as (ss & ps & Hrun & Hs & Hp & _ & Hnone & _).
    exists ss, ps; repeat split; try assumption.
    apply Hnone; reflexivity.
Defined.

(** The claim C3 fails on a bucket list that holds a [null]: with
    [Data = [null]] there is no radio bucket and no podcast bucket, and
    with a [null] among the items of the radio bucket there is no
    podcast bucket, yet in both cases the handler answers 500 instead of
    a result with an empty collection. *)
Lemma null_breaks_bucket_selection :
  first_bucket (lit "radio") [Null] = None /\
  first_bucket (lit "podcast") [Null] = None /\
  run (answering (answer_with (Arr [Null]))) (search (Str (lit "jazz"))) =
  ([Called (search_request (lit "jazz"));
    Logged (lit "Search error:") TypeError],
   Responded
     {| status := 500;
        json := ErrorBody
                  (Str (lit "Internal server error while searching RadioFM")) |})
  /\
  first_bucket (lit "podcast") torn_buckets = None /\
  run (answering (answer_with (Arr torn_buckets))) (search (Str (lit "jazz"))) =
  ([Called (search_request (lit "jazz"));
    Logged (lit "Search error:") TypeError],
   Responded
     {| status := 500;
        json := ErrorBody
                  (Str (lit "Internal server error while searching RadioFM")) |}).
Proof.
  repeat split; vm_compute; reflexivity.
Qed.

Lemma jazz_run :
  run (answering jazz_answer) (search (Str (lit " jazz "))) =
  ([Called (search_request (lit "jazz"))], Responded jazz_response).
Proof. vm_compute; reflexivity. Qed.

Lemma search_result_assembly_witness :
  run (answering jazz_answer) (search (Str (lit " jazz "))) =
  ([Called (search_request (lit "jazz"))], Responded jazz_response) /\
  status jazz_response = 200 /\
  exists s apiData ss ps,
    Str (lit " jazz ") = Str s /\
    [Called (search_request (lit "jazz"))]
    = [Called (search_request (trim s))] /\
    answering jazz_answer (search_request (trim s)) = Resolved apiData /\
    json jazz_response
    = ResultBody {| query := trim s;
                    totalStations := length ss;
                    totalPodcasts := length ps;
                    stations := ss;
                    podcasts := ps |} /\
    collection_of mapRadioStation (lit "radio")
      (bucket_list (field (field apiData (lit "data")) (lit "Data"))) ss /\
    collection_of mapPodcast (lit "podcast")
      (bucket_list (field (field apiData (lit "data")) (lit "Data"))) ps.
Proof.
  split; [exact jazz_run|].
  split; [reflexivity|].
  exact (@search_result_assembly _ (answering jazz_answer)
           (Str (lit " jazz ")) _ jazz_response jazz_run eq_refl).
Defined.

Lemma messy_station_normalized :
  mapRadioStation messy_station = Ok messy_normalized.
Proof. vm_compute; reflexivity. Qed.

Lemma quiet_podcast_normalized : mapPodcast quiet_podcast = Ok quiet_normalized.
Proof. vm_compute; reflexivity. Qed.

Lemma station_direct_renames_witness :
  mapRadioStation messy_station = Ok messy_normalized /\
  Station.id messy_normalized = field messy_station (lit "st_id") /\
  Station.name messy_normalized = field messy_station (lit "st_name") /\
  Station.logo messy_normalized = field messy_station (lit "st_logo").
Proof.
  split; [exact messy_station_normalized|].
  destruct (@station_direct_renames _ messy_station messy_normalized
              messy_station_normalized) as (H1 & H2 & H3 & _).
  repeat split; assumption.
Defined.

Lemma podcast_direct_renames_witness :
  mapPodcast quiet_podcast = Ok quiet_normalized /\
  Podcast.id quiet_normalized = field quiet_podcast (lit "p_id") /\
  Podcast.name quiet_normalized = field quiet_podcast (lit "p_name") /\
  Podcast.description quiet_normalized = field quiet_podcast (lit "p_desc").
Proof.
  split; [exact quiet_podcast_normalized|].
  destruct (@podcast_direct_renames _ quiet_podcast quiet_normalized
              quiet_podcast_normalized) as (H1 & H2 & H3 & _).
  repeat split; assumption.
Defined.

Lemma falsy_counter_is_zero_witness :
  counter_of (Bool false) (Podcast.totalStream quiet_normalized) /\
  ToBoolean (Bool false) = false /\
  Podcast.totalStream quiet_normalized = zero.
Proof.
  assert (H : counter_of (Bool false) (Podcast.totalStream quiet_normalized))
    by exact (@total_stream _ quiet_podcast quiet_normalized
                quiet_podcast_normalized).
  split; [exact H|]. split; [reflexivity|].
  exact (@falsy_counter_is_zero _ _ _ H eq_refl).
Defined.

Lemma counter_reads_leading_digits_witness :
  counter_of (Str (lit " 12.5")) (Station.playCount messy_normalized) /\
  Str (lit " 12.5") = Str (lit " " ++ lit "12" ++ lit ".5") /\
  forallb is_whitespace (lit " ") = true /\
  numeric_string (lit "12") = true /\
  stops_digits (lit ".5") = true /\
  (Station.playCount messy_normalized = number_of_Z 12 false /\
   Station.playCount messy_normalized <> NaN).
Proof.
  assert (H : counter_of (Str (lit " 12.5"))
                (Station.playCount messy_normalized))
    by exact (@play_count _ messy_station messy_normalized
                messy_station_normalized).
  split; [exact H|]. do 4 (split; [reflexivity|]).
  exact (@counter_reads_leading_digits _ _ _ (lit " ") (lit "12") (lit ".5")
           H eq_refl eq_refl eq_refl eq_refl).
Defined.

Lemma counter_keeps_sign_witness :
  counter_of (Str (lit "-3")) (Station.favoriteCount messy_normalized) /\
  Str (lit "-3") = Str ([] ++ 45%N :: lit "3" ++ []) /\
  forallb is_whitespace [] = true /\
  is_sign 45 = true /\
  numeric_string (lit "3") = true /\
  stops_digits [] = true /\
  Station.favoriteCount messy_normalized = number_of_Z (-3) true.
Proof.
  assert (H : counter_of (Str (lit "-3"))
                (Station.favoriteCount messy_normalized))
    by exact (@favorite_count _ messy_station messy_normalized
                messy_station_normalized).
  split; [exact H|]. do 5 (split; [reflexivity|]).
  exact (@counter_keeps_sign _ _ _ [] (lit "3") [] 45%N
           H eq_refl eq_refl eq_refl eq_refl eq_refl).
Defined.

Lemma listen_url_without_short_url_witness :
  mapRadioStation messy_station = Ok messy_normalized /\
  field messy_station (lit "st_shorturl") = Undefined /\
  Station.listenUrl messy_normalized
  = lit "https://appradiofm.com/radioplay/undefined".
Proof.
  split; [exact messy_station_normalized|]. split; [reflexivity|].
  destruct (@listen_url_without_short_url _ messy_station messy_normalized
              messy_station_normalized) as [H _].
  exact (H eq_refl).
Defined.

Lemma non_object_item_is_blank_witness :
  nullish (Str (lit "oops")) = false /\
  (forall props, Str (lit "oops") <> Obj props) /\
  mapRadioStation (Str (lit "oops")) = Ok blank_station /\
  mapPodcast (Str (lit "oops")) = Ok blank_podcast.
Proof.
  split; [reflexivity|]. split; [discriminate|].
  apply (@non_object_item_is_blank _ (Str (lit "oops")));
    [reflexivity | discriminate].
Defined.

Lemma outbound_request_shape_witness :
  In (Called (search_request (lit "jazz")))
    (fst (run (answering jazz_answer) (search (Str (lit " jazz "))))) /\
  exists s,
    Str (lit " jazz ") = Str s /\
    search_request (lit "jazz")
    = {| url := lit "https://devappradiofm.radiofm.co/rfm/api/new_combo_search.php";
         params := [(lit "srch", Str (trim s))];
         timeout := 15000 |} /\
    trim s <> [] /\
    trim (trim s) = trim s.
Proof.
  assert (H : In (Called (search_request (lit "jazz")))
                (fst (run (answering jazz_answer)
                        (search (Str (lit " jazz "))))))
    by (rewrite jazz_run; left; reflexivity).
  split; [exact H|].
  exact (@outbound_request_shape _ (answering jazz_answer)
           (Str (lit " jazz ")) (search_request (lit "jazz")) H).
Defined.

Lemma jazz_outcome :
  snd (run (answering jazz_answer) (search (Str (lit " jazz "))))
  = Responded jazz_response.
Proof. rewrite jazz_run; reflexivity. Qed.

Lemma response_statuses_witness :
  snd (run (answering jazz_answer) (search (Str (lit " jazz "))))
  = Responded jazz_response /\
  known_status (status jazz_response) = true /\
  (status jazz_response = 200 ->
   exists res, json jazz_response = ResultBody res) /\
  (status jazz_response <> 200 ->
   exists e, json jazz_response = ErrorBody e).
Proof.
  split; [exact jazz_outcome|].
  exact (@response_statuses _ (answering jazz_answer) (Str (lit " jazz "))
           jazz_response jazz_outcome).
Defined.

Lemma non_string_query_is_unhandled_witness :
  ToBoolean repeated_query = true /\
  (forall s, repeated_query <> Str s) /\
  run (answering jazz_answer) (search repeated_query)
  = ([], Unhandled TypeError).
Proof.
  split; [reflexivity|]. split; [discriminate|].
  apply (@non_string_query_is_unhandled _ (answering jazz_answer)
           repeated_query); [reflexivity | discriminate].
Defined.

Lemma answer_with_envelope (data : value) :
  success_envelope (answer_with data) data.
Proof. repeat split. Qed.

Lemma non_array_data_is_500_witness :
  trim (lit " jazz ") <> [] /\
  answering (answer_with (Str (lit "none")))
    (search_request (trim (lit " jazz ")))
  = Resolved (answer_with (Str (lit "none"))) /\
  success_envelope (answer_with (Str (lit "none"))) (Str (lit "none")) /\
  ToBoolean (Str (lit "none")) = true /\
  isArray (Str (lit "none")) = false /\
  run (answering (answer_with (Str (lit "none"))))
    (search (Str (lit " jazz "))) =
  ([Called (search_request (trim (lit " jazz ")));
    Logged (lit "Search error:") TypeError],
   Responded
     {| status := 500;
        json := ErrorBody
                  (Str (lit "Internal server error while searching RadioFM")) |}).
Proof.
  split; [exact jazz_query_not_blank|]. split; [reflexivity|].
  split; [apply answer_with_envelope|]. do 2 (split; [reflexivity|]).
  exact (@non_array_data_is_500 _ (answering (answer_with (Str (lit "none"))))
           (lit " jazz ") _ _ jazz_query_not_blank eq_refl
           (answer_with_envelope (Str (lit "none"))) eq_refl eq_refl).
Defined.

Lemma absent_data_is_empty_success_witness :
  trim (lit " jazz ") <> [] /\
  answering (answer_with Null) (search_request (trim (lit " jazz ")))
  = Resolved (answer_with Null) /\
  success_envelope (answer_with Null) Null /\
  ToBoolean Null = false /\
  run (answering (answer_with Null)) (search (Str (lit " jazz "))) =
  ([Called (search_request (trim (lit " jazz ")))],
   Responded
     {| status := 200;
        json := ResultBody {| query := trim (lit " jazz ");
                              totalStations := 0;
                              totalPodcasts := 0;
                              stations := [];
                              podcasts := [] |} |}).
Proof.
  split; [exact jazz_query_not_blank|]. split; [reflexivity|].
  split; [apply answer_with_envelope|]. split; [reflexivity|].
  exact (@absent_data_is_empty_success _ (answering (answer_with Null))
           (lit " jazz ") _ _ jazz_query_not_blank eq_refl
           (answer_with_envelope Null) eq_refl).
Defined.

Lemma torn_buckets_not_null : Forall (fun b => nullish b = false) torn_buckets.
Proof. repeat constructor. Qed.

Lemma torn_buckets_have_null :
  Exists (fun item => nullish item = true)
    (selected_items (lit "radio") torn_buckets) \/
  Exists (fun item => nullish item = true)
    (selected_items (lit "podcast") torn_buckets).
Proof.
  left; apply Exists_exists; exists Null; split; [|reflexivity].
  vm_compute; right; left; reflexivity.
Qed.

Lemma null_item_is_500_witness :
  trim (lit " jazz ") <> [] /\
  answering (answer_with (Arr torn_buckets))
    (search_request (trim (lit " jazz ")))
  = Resolved (answer_with (Arr torn_buckets)) /\
  success_envelope (answer_with (Arr torn_buckets)) (Arr torn_buckets) /\
  Forall (fun b => nullish b = false) torn_buckets /\
  (Exists (fun item => nullish item = true)
     (selected_items (lit "radio") torn_buckets) \/
   Exists (fun item => nullish item = true)
     (selected_items (lit "podcast") torn_buckets)) /\
  exists err,
    run (answering (answer_with (Arr torn_buckets)))
      (search (Str (lit " jazz "))) =
    ([Called (search_request (trim (lit " jazz ")));
      Logged (lit "Search error:") err],
     Responded
       {| status := 500;
          json := ErrorBody
                    (Str (lit "Internal server error while searching RadioFM")) |}).
Proof.
  split; [exact jazz_query_not_blank|]. split; [reflexivity|].
  split; [apply answer_with_envelope|].
  split; [exact torn_buckets_not_null|].
  split; [exact torn_buckets_have_null|].
  exact (@null_item_is_500 _ (answering (answer_with (Arr torn_buckets)))
           (lit " jazz ") _ torn_buckets jazz_query_not_blank eq_refl
           (answer_with_envelope (Arr torn_buckets)) torn_buckets_not_null
           torn_buckets_have_null).
Defined.

Lemma null_bucket_is_500_witness :
  trim (lit " jazz ") <> [] /\
  answering (answer_with (Arr (Null :: jazz_buckets)))
    (search_request (trim (lit " jazz ")))
  = Resolved (answer_with (Arr (Null :: jazz_buckets))) /\
  success_envelope (answer_with (Arr (Null :: jazz_buckets)))
    (Arr ([] ++ Null :: jazz_buckets)) /\
  nullish Null = true /\
  (first_bucket (lit "radio") [] = None \/
   first_bucket (lit "podcast") [] = None) /\
  run (answering (answer_with (Arr (Null :: jazz_buckets))))
    (search (Str (lit " jazz "))) =
  ([Called (search_request (trim (lit " jazz ")));
    Logged (lit "Search error:") TypeError],
   Responded
     {| status := 500;
        json := ErrorBody
                  (Str (lit "Internal server error while searching RadioFM")) |}).
Proof.
  split; [exact jazz_query_not_blank|]. split; [reflexivity|].
  split; [apply (answer_with_envelope (Arr (Null :: jazz_buckets)))|].
  split; [reflexivity|]. split; [left; reflexivity|].
  exact (@null_bucket_is_500 _
           (answering (answer_with (Arr (Null :: jazz_buckets))))
           (lit " jazz ") _ [] jazz_buckets Null jazz_query_not_blank eq_refl
           (answer_with_envelope (Arr (Null :: jazz_buckets))) eq_refl
           (or_introl eq_refl)).
Defined.

Lemma later_buckets_are_ignored_witness :
  trim (lit " jazz ") <> [] /\
  answering (answer_with (Arr full_buckets))
    (search_request (trim (lit " jazz ")))
  = Resolved (answer_with (Arr full_buckets)) /\
  answering (answer_with (Arr (full_buckets ++ [Null; quiet_bucket])))
    (search_request (trim (lit " jazz ")))
  = Resolved (answer_with (Arr (full_buckets ++ [Null; quiet_bucket]))) /\
  success_envelope (answer_with (Arr full_buckets)) (Arr full_buckets) /\
  success_envelope (answer_with (Arr (full_buckets ++ [Null; quiet_bucket])))
    (Arr (full_buckets ++ [Null; quiet_bucket])) /\
  (exists rb, first_bucket (lit "radio") full_buckets = Some rb) /\
  (exists pb, first_bucket (lit "podcast") full_buckets = Some pb) /\
  run (answering (answer_with (Arr (full_buckets ++ [Null; quiet_bucket]))))
    (search (Str (lit " jazz ")))
  = run (answering (answer_with (Arr full_buckets)))
      (search (Str (lit " jazz "))).
Proof.
  split; [exact jazz_query_not_blank|]. do 2 (split; [reflexivity|]).
  do 2 (split; [apply answer_with_envelope|]).
  do 2 (split; [eexists; reflexivity|]).
  exact (@later_buckets_are_ignored _
           (answering (answer_with (Arr full_buckets)))
           (answering (answer_with (Arr (full_buckets ++ [Null; quiet_bucket]))))
           (lit " jazz ") _ _ full_buckets [Null; quiet_bucket] _ _
           jazz_query_not_blank eq_refl eq_refl
           (answer_with_envelope (Arr full_buckets))
           (answer_with_envelope (Arr (full_buckets ++ [Null; quiet_bucket])))
           eq_refl eq_refl).
Defined.

Lemma success_needs_zero_code_witness :
  snd (run (answering jazz_answer) (search (Str (lit " jazz "))))
  = Responded jazz_response /\
  status jazz_response = 200 /\
  exists s apiData,
    Str (lit " jazz ") = Str s /\
    answering jazz_answer (search_request (trim s)) = Resolved apiData /\
    ToBoolean apiData = true /\
    ToBoolean (field apiData (lit "data")) = true /\
    (exists negative,
       field (field apiData (lit "data")) (lit "ErrorCode")
       = Num (S754_zero negative)) /\
    (ToBoolean (field (field apiData (lit "data")) (lit "Data")) = false \/
     exists buckets,
       field (field apiData (lit "data")) (lit "Data") = Arr buckets).
Proof.
  split; [exact jazz_outcome|]. split; [reflexivity|].
  exact (@success_needs_zero_code _ (answering jazz_answer)
           (Str (lit " jazz ")) jazz_response jazz_outcome eq_refl).
Defined.

Lemma totals_count_raw_items_witness :
  snd (run (answering jazz_answer) (search (Str (lit " jazz "))))
  = Responded jazz_response /\
  status jazz_response = 200 /\
  exists res,
    json jazz_response = ResultBody res /\
    exists s apiData,
      Str (lit " jazz ") = Str s /\
      answering jazz_answer (search_request (trim s)) = Resolved apiData /\
      normalized mapRadioStation
        (selected_items (lit "radio")
           (bucket_list (field (field apiData (lit "data")) (lit "Data"))))
        (stations res) /\
      normalized mapPodcast
        (selected_items (lit "podcast")
           (bucket_list (field (field apiData (lit "data")) (lit "Data"))))
        (podcasts res) /\
      totalStations res
      = length (selected_items (lit "radio")
                  (bucket_list
                     (field (field apiData (lit "data")) (lit "Data")))) /\
      totalPodcasts res
      = length (selected_items (lit "podcast")
                  (bucket_list
                     (field (field apiData (lit "data")) (lit "Data")))).
Proof.
  split; [exact jazz_outcome|]. split; [reflexivity|].
  eexists; split; [reflexivity|].
  exact (@totals_count_raw_items _ (answering jazz_answer)
           (Str (lit " jazz ")) jazz_response _ jazz_outcome eq_refl eq_refl).
Defined.

Lemma mapRadioStation_total_witness :
  nullish messy_station = false /\
  primitive (field messy_station (lit "st_play_cnt")) = true /\
  primitive (field messy_station (lit "st_fav_cnt")) = true /\
  primitive (field messy_station (lit "st_shorturl")) = true /\
  exists st, mapRadioStation messy_station = Ok st.
Proof.
  do 4 (split; [reflexivity|]).
  exact (@mapRadioStation_total _ messy_station eq_refl eq_refl eq_refl
           eq_refl).
Defined.

Lemma mapPodcast_total_witness :
  nullish quiet_podcast = false /\
  primitive (field quiet_podcast (lit "total_stream")) = true /\
  exists pd, mapPodcast quiet_podcast = Ok pd.
Proof.
  do 2 (split; [reflexivity|]).
  exact (@mapPodcast_total _ quiet_podcast eq_refl eq_refl).
Defined.

Lemma surrounding_white_space_is_ignored_witness :
  trim (lit " jazz ") = trim (lit "jazz") /\
  run (answering jazz_answer) (search (Str (lit " jazz ")))
  = run (answering jazz_answer) (search (Str (lit "jazz"))).
Proof.
  split; [reflexivity|].
  exact (@surrounding_white_space_is_ignored _ (answering jazz_answer)
           (lit " jazz ") (lit "jazz") eq_refl).
Defined.
